(** * Keyword Trend Explorer: the anomaly annotator and its glue code

    A shallow embedding of [app.py] and [app_openai.py].  Both files carry
    the same [fetch_trends_2023_us], [compute_anomalies] and [format_pct];
    they differ in the explanation backend only.

    Python's [float] and the float64 columns of pandas are IEEE-754
    binary64 numbers; they are embedded as [spec_float] with precision 53
    and maximal exponent 1024, so that division by zero, NaN and the
    rounding of every operation are the ones the program sees. *)

From Stdlib Require Import ZArith NArith List Bool Lia.
From Stdlib Require Import Strings.String Strings.Ascii.
From Stdlib Require Import Floats.SpecFloat.
From Stdlib Require Import Numbers.DecimalString Numbers.DecimalPos.
From Stdlib Require Import Numbers.DecimalN.
Import ListNotations.

Local Open Scope Z_scope.

(** ** binary64 arithmetic *)

Definition float : Type := spec_float.

Module F64.

Definition prec : Z := 53.
Definition emax : Z := 1024.

Definition nan : float := S754_nan.
Definition zero : float := S754_zero false.

(** [float(z)] for a Python int or an int64 cell: round to nearest even. *)
Definition of_int (z : Z) : float := binary_normalize prec emax z 0 false.

Definition one : float := of_int 1.

Definition mul : float -> float -> float := SFmul prec emax.
Definition div : float -> float -> float := SFdiv prec emax.
Definition sub : float -> float -> float := SFsub prec emax.
Definition abs : float -> float := SFabs.

(** Comparisons: every comparison with a NaN operand is false. *)
Definition ltb : float -> float -> bool := SFltb.
Definition leb : float -> float -> bool := SFleb.
Definition eqb : float -> float -> bool := SFeqb.
Definition gtb (x y : float) : bool := ltb y x.
Definition geb (x y : float) : bool := leb y x.

Definition isnan (x : float) : bool :=
  match x with S754_nan => true | _ => false end.

Definition is_finite (x : float) : bool :=
  match x with S754_zero _ | S754_finite _ _ _ => true | _ => false end.

(** The sign bit; a NaN carries none in this representation. *)
Definition signbit (x : float) : bool :=
  match x with
  | S754_zero s | S754_infinity s | S754_finite s _ _ => s
  | S754_nan => false
  end.

(** The literal [0.30]: the binary64 number nearest to 3/10. *)
Definition lit_0_30 : float := S754_finite false 5404319552844595 (-54).

End F64.

(** ** The data model *)

(** A calendar date, as [datetime.date] has it. *)
Record date := mkdate { year : Z; month : Z; day : Z }.

(** A cell of the [interest] column: pytrends delivers int64, a resampled
    series holds float64. *)
Inductive num :=
| NInt (z : Z)
| NFloat (f : float).

(** [x.astype(float)] on one cell. *)
Definition astype_float (v : num) : float :=
  match v with
  | NInt z => F64.of_int z
  | NFloat f => f
  end.

(** A row of the frame with columns [date, interest]. *)
Record ObservationPoint := mkobs { date_of : date; interest : num }.

Definition DataFrame := list ObservationPoint.

(** A row of the annotated frame: the base columns and the three the
    annotator adds.  [pct_change] is NaN where pandas has no value;
    [direction] is ['spiked'], ['dropped'] or [None]. *)
Record AnnotatedPoint := mkann {
  a_date : date;
  a_interest : num;
  pct_change : float;
  is_anomaly : bool;
  direction : option string
}.

Definition AnnotatedFrame := list AnnotatedPoint.

(** ** pandas' [Series.pct_change] *)

Module Pandas.

(** What [pct_change] does to missing values before dividing: pandas
    before 3.0 pads them forward by default, pandas 3.0 does not. *)
Inductive fill_method := Pad | NoFill.

(** [Series.ffill]: a NaN takes the last value seen that is not NaN. *)
Fixpoint ffill_from (last : option float) (l : list float) : list float :=
  match l with
  | [] => []
  | x :: r =>
      if F64.isnan x
      then match last with
           | Some v => v :: ffill_from last r
           | None => x :: ffill_from last r
           end
      else x :: ffill_from (Some x) r
  end.

Definition ffill (l : list float) : list float := ffill_from None l.

(** [Series.shift(1)]: every value moves one row down, the first row
    becomes NaN and the last value is dropped. *)
Definition shift1 (l : list float) : list float :=
  match l with
  | [] => []
  | _ :: _ => F64.nan :: removelast l
  end.

(** Element-wise binary operation on two aligned columns. *)
Fixpoint map2 {A B C : Type} (f : A -> B -> C) (l : list A) (r : list B) : list C :=
  match l, r with
  | a :: l', b :: r' => f a b :: map2 f l' r'
  | _, _ => []
  end.

(** [rs = data / data.shift(1) - 1]. *)
Definition pct_change (fm : fill_method) (s : list float) : list float :=
  let data := match fm with Pad => ffill s | NoFill => s end in
  let shifted := shift1 data in
  map2 (fun d p => F64.sub (F64.div d p) F64.one) data shifted.

Definition isna (x : float) : bool := F64.isnan x.
Definition notna (x : float) : bool := negb (F64.isnan x).

End Pandas.

(** ** The annotator: [compute_anomalies] *)

Local Open Scope string_scope.

(** The lambda of the [direction] column. *)
Definition direction_of (x : float) : option string :=
  if Pandas.notna x && F64.gtb x F64.zero then Some "spiked"
  else if Pandas.notna x && F64.ltb x F64.zero then Some "dropped"
  else None.

(** Gluing the three new columns to the rows of the frame. *)
Fixpoint assign (df : DataFrame) (pct : list float) (anom : list bool)
  (dir : list (option string)) : AnnotatedFrame :=
  match df, pct, anom, dir with
  | r :: df', p :: pct', a :: anom', d :: dir' =>
      mkann (date_of r) (interest r) p a d :: assign df' pct' anom' dir'
  | _, _, _, _ => []
  end.

Definition compute_anomalies (fm : Pandas.fill_method) (df : DataFrame)
  (change_threshold : float) : AnnotatedFrame :=
  match df with
  | [] => assign df [] [] []
  | _ :: _ =>
      let interest := map (fun r => astype_float (interest r)) df in
      let pct := Pandas.pct_change fm interest in
      let anomaly := map (fun p => F64.geb (F64.abs p) change_threshold) pct in
      let dir := map direction_of pct in
      assign df pct anomaly dir
  end.

(** The default of [change_threshold]. *)
Definition default_threshold : float := F64.lit_0_30.

(** Dropping the added columns again. *)
Definition project (af : AnnotatedFrame) : DataFrame :=
  map (fun a => mkobs (a_date a) (a_interest a)) af.

(** A frame of integer readings taken on the Sundays from 2023-01-01 on. *)
Definition reading (m d : Z) (v : Z) : ObservationPoint :=
  mkobs (mkdate 2023 m d) (NInt v).

Definition example_frame : DataFrame :=
  [reading 1 1 100; reading 1 8 135; reading 1 15 90;
   reading 1 22 90; reading 1 29 0; reading 2 5 50].

(** Readings whose week-over-week changes sit on both sides of 30%:
    +30%, -30%, then about +9.9%, +29%, -22.5% and -29%. *)
Definition boundary_frame : DataFrame :=
  [reading 1 1 100; reading 1 8 130; reading 1 15 91; reading 1 22 100;
   reading 1 29 129; reading 2 5 100; reading 2 12 71].

(** The change 100 -> 135 as binary64 computes it, [135/100 - 1]. *)
Definition change_0_35 : float := S754_finite false 6305039478318696 (-54).

(** Rows of [example_frame] once annotated. *)
Definition row_spiked (t : float) : AnnotatedPoint :=
  mkann (mkdate 2023 1 8) (NInt 135) change_0_35 (F64.geb change_0_35 t)
    (Some "spiked").

Definition row_flat (t : float) : AnnotatedPoint :=
  mkann (mkdate 2023 1 22) (NInt 90) F64.zero (F64.geb F64.zero t) None.

(** ** Strings *)

Module PyStr.

(** [sub in s]. *)
Fixpoint contains (sub s : string) : bool :=
  if String.prefix sub s then true
  else match s with
       | EmptyString => false
       | String _ r => contains sub r
       end.

Definition code (c : ascii) : N := N_of_ascii c.








(** [str(n)] for a natural number. *)
Definition dec (n : Z) : string := NilEmpty.string_of_uint (N.to_uint (Z.to_N n)).

Fixpoint zeros (k : nat) : string :=
  match k with
  | O => ""
  | S k' => String "0" (zeros k')
  end.

(** [s.zfill(w)] for a string of digits. *)
Definition zfill (w : nat) (s : string) : string :=
  zeros (w - String.length s) ++ s.

Definition is_digit (c : ascii) : bool := ((48 <=? code c) && (code c <=? 57))%N.

Fixpoint all_digits (s : string) : bool :=
  match s with
  | EmptyString => true
  | String c r => is_digit c && all_digits r
  end.

End PyStr.

(** ** [format_pct] *)

Module Fmt.

(** [n / d] rounded to the nearest integer, ties to even ([0 < d]). *)
Definition round_half_even (n d : Z) : Z :=
  let q := n / d in
  let r := n mod d in
  match (2 * r ?= d)%Z with
  | Lt => q
  | Gt => q + 1
  | Eq => if Z.even q then q else q + 1
  end.

(** The number of tenths nearest to [m * 2^e]. *)
Definition tenths (m : positive) (e : Z) : Z :=
  if (0 <=? e)%Z then (Zpos m * 2 ^ e * 10)%Z
  else round_half_even (Zpos m * 10) (2 ^ (- e)).

Definition sign (s : bool) : string := if s then "-" else "".

(** [format(x, '.1f')]: the exact value of [x] rounded to one decimal,
    ties to even. *)
Definition format_1f (x : float) : string :=
  match x with
  | S754_nan => "nan"
  | S754_infinity s => sign s ++ "inf"
  | S754_zero s => sign s ++ "0.0"
  | S754_finite s m e =>
      let t := tenths m e in
      sign s ++ PyStr.dec (t / 10) ++ "." ++ PyStr.dec (t mod 10)
  end.

End Fmt.

Definition em_dash : string := "—".

Definition format_pct (x : float) : string :=
  if Pandas.isna x then em_dash
  else Fmt.format_1f (F64.mul x (F64.of_int 100)) ++ "%".

(** [date.strftime('%Y-%m-%d')], with the year on four digits and month
    and day on two, as the library documents the directives.  How a year
    below 1000 is printed is left to the C library (glibc does not pad
    it); from the year 1000 on every platform prints this text, and the
    statements about it are made for those years. *)
Definition strftime_Ymd (d : date) : string :=
  PyStr.zfill 4 (PyStr.dec (year d)) ++ "-" ++
  PyStr.zfill 2 (PyStr.dec (month d)) ++ "-" ++
  PyStr.zfill 2 (PyStr.dec (day d)).

(** The dates [datetime.date] can hold, up to the length of the month. *)
Definition valid_date (d : date) : bool :=
  ((1 <=? year d) && (year d <=? 9999) &&
   (1 <=? month d) && (month d <=? 12) &&
   (1 <=? day d) && (day d <=? 31))%Z.

(** The years every platform prints on four digits. *)
Definition four_digit_year (d : date) : bool := (1000 <=? year d)%Z.

(** The shape [YYYY-MM-DD]. *)
Definition iso_shape (s : string) : bool :=
  match s with
  | String y1 (String y2 (String y3 (String y4 (String h1
      (String m1 (String m2 (String h2 (String d1 (String d2 EmptyString))))))))) =>
      PyStr.is_digit y1 && PyStr.is_digit y2 && PyStr.is_digit y3 &&
      PyStr.is_digit y4 && Ascii.eqb h1 "-" && PyStr.is_digit m1 &&
      PyStr.is_digit m2 && Ascii.eqb h2 "-" && PyStr.is_digit d1 &&
      PyStr.is_digit d2
  | _ => false
  end.

(** The number [n] prints, zero-filled, on exactly [w] digits. *)
Definition fits (w : nat) (n : nat) : bool :=
  let s := PyStr.zfill w (PyStr.dec (Z.of_nat n)) in
  Nat.eqb (String.length s) w && PyStr.all_digits s.

(** ** Effects: exceptions, the UI and the external collaborators *)

(** A Python exception: whether its class derives from [Exception] (and
    not from [BaseException] alone), and [str(e)]. *)
Record exc := mkexc { is_Exception : bool; str_of : string }.

(** What a call into foreign code does. *)
Inductive outcome (A : Type) :=
| Returns (a : A)
| Raises (e : exc).
Arguments Returns {A} a.
Arguments Raises {A} e.

(** What the program does to the outside world, in order: the courtesy
    sleep, a message on the page, the call of [interest_over_time] (the
    constructor and [build_payload] talk to the service too, and log
    nothing), the construction of an explanation backend and a call to
    it. *)
Inductive event :=
| Slept
| StError (msg : string)
| TrendsQuery (keyword : string)
| BackendCreate (credential : string)
| BackendCall (prompt : string).

(** Computations that log events. *)
Definition io (A : Type) : Type := A * list event.

Definition ret {A} (a : A) : io A := (a, []).

Definition bind {A B} (m : io A) (k : A -> io B) : io B :=
  let '(a, l1) := m in
  let '(b, l2) := k a in
  (b, (l1 ++ l2)%list).

Definition emit (e : event) : io unit := (tt, [e]).

Notation "x <- m ;; k" := (bind m (fun x => k))
  (at level 61, m at next level, right associativity).
Notation "m ;;; k" := (bind m (fun _ => k))
  (at level 61, right associativity).

Definition result_of {A} (m : io A) : A := fst m.
Definition events_of {A} (m : io A) : list event := snd m.

(** The messages handed to [st.error]. *)
Fixpoint st_errors (l : list event) : list string :=
  match l with
  | [] => []
  | StError m :: r => m :: st_errors r
  | _ :: r => st_errors r
  end.

(** The calls that reach an explanation backend. *)
Definition is_backend_event (e : event) : bool :=
  match e with
  | BackendCreate _ | BackendCall _ => true
  | _ => false
  end.

(** ** The fetcher: [fetch_trends_2023_us] *)

Definition rate_limit_message : string :=
  "⚠️ Rate limit exceeded. Please wait a few minutes before trying again.".

Definition fetch_failed_message (e : exc) : string :=
  "Error fetching trends data: " ++ str_of e.

(** The test of the [except] branch. *)
Definition rate_limited (e : exc) : bool :=
  PyStr.contains "429" (str_of e) || PyStr.contains "TooManyRequests" (str_of e).

(** The [except Exception as e] handler; an exception that is not an
    [Exception] passes through. *)
Definition fetch_handler (e : exc) : io (outcome DataFrame) :=
  if is_Exception e then
    if rate_limited e then
      emit (StError rate_limit_message) ;;; ret (Returns [])
    else
      emit (StError (fetch_failed_message e)) ;;; ret (Returns [])
  else ret (Raises e).

Section Fetcher.

(** The table pytrends answers with, and what pandas does to it on the
    success path: [df.empty], and the selection of the keyword's column
    followed by [asfreq('W-SUN')], [tz_localize(None)] and
    [reset_index], which may raise. *)
Variable raw_frame : Type.
Variable raw_empty : raw_frame -> bool.
Variable normalize : string -> raw_frame -> outcome DataFrame.

(** The pytrends client as the fetcher uses it. *)
Record TrendReq := mkTrendReq {
  construct : outcome unit;
  build_payload : string -> outcome unit;
  interest_over_time : string -> outcome (option raw_frame)
}.

(** The body of the [try]. *)
Definition fetch_body (api : TrendReq) (keyword : string) : io (outcome DataFrame) :=
  match construct api with
  | Raises e => ret (Raises e)
  | Returns _ =>
      match build_payload api keyword with
      | Raises e => ret (Raises e)
      | Returns _ =>
          emit Slept ;;;
          emit (TrendsQuery keyword) ;;;
          match interest_over_time api keyword with
          | Raises e => ret (Raises e)
          | Returns None => ret (Returns [])
          | Returns (Some df) =>
              if raw_empty df then ret (Returns [])
              else ret (normalize keyword df)
          end
      end
  end.

Definition fetch_trends_2023_us (api : TrendReq) (keyword : string)
  : io (outcome DataFrame) :=
  r <- fetch_body api keyword ;;
  match r with
  | Returns df => ret (Returns df)
  | Raises e => fetch_handler e
  end.

(** The collaborator raises [e] during a fetch for [keyword]. *)
Inductive collaborator_raises (api : TrendReq) (keyword : string) (e : exc) : Prop :=
| raises_construct :
    construct api = Raises e -> collaborator_raises api keyword e
| raises_build_payload :
    construct api = Returns tt ->
    build_payload api keyword = Raises e ->
    collaborator_raises api keyword e
| raises_interest_over_time :
    construct api = Returns tt ->
    build_payload api keyword = Returns tt ->
    interest_over_time api keyword = Raises e ->
    collaborator_raises api keyword e.

End Fetcher.

Arguments mkTrendReq {raw_frame}.
Arguments construct {raw_frame}.
Arguments build_payload {raw_frame}.
Arguments interest_over_time {raw_frame}.
Arguments fetch_body {raw_frame}.
Arguments fetch_trends_2023_us {raw_frame}.
Arguments collaborator_raises {raw_frame}.

(** ** The explanation step *)

Definition build_explanation_prompt (region keyword : string) (d : date)
  (direction : string) : string :=
  "Explain why search interest in '" ++ keyword ++ "' might have " ++
  direction ++ " on " ++ strftime_Ymd d ++ " in " ++ region ++
  ". Give a concise 2-3 sentence hypothesis.".



Module HF.

Definition placeholder : string := "YOUR_HF_API_TOKEN_HERE".

(** What a text-generation pipeline hands back: a list of dicts (each
    with its [generated_text] when that is a string), a bare string, or
    anything else; [repr] is [str(outputs)]. *)
Inductive outputs :=
| OutList (texts : list (option string)) (repr : string)
| OutStr (s : string)
| OutOther (repr : string).

(** The transformers library: building the pipeline, then calling it. *)
Record backend := mkbackend {
  pipeline : string -> outcome (string -> outcome outputs)
}.




End HF.

Module OpenAI.

Definition placeholder : string := "YOUR_OPENAI_API_KEY_HERE".


(** The openai library: the client constructor, and the chat completion
    of a client, answering with the [content] of each choice. *)
Record backend := mkbackend {
  client : string -> outcome (string -> outcome (list (option string)))
}.




End OpenAI.

(** ** Concrete collaborators *)

(** The error pytrends raises when Google answers with status 429. *)
Definition too_many_requests : exc :=
  mkexc true "The request failed: Google returned a response with code 429".

Definition connection_reset : exc :=
  mkexc true "Connection reset by peer".

(** A pytrends client whose query raises [e]. *)
Definition failing_api (e : exc) : TrendReq unit :=
  mkTrendReq (Returns tt) (fun _ => Returns tt) (fun _ => Raises e).




(** ** What the claims say of a formatted change *)

(** A percentage with exactly one decimal place: digits, the point, one
    digit, the percent sign. *)
Definition one_decimal_percentage (s : string) : Prop :=
  exists (ds : string) (d : ascii),
    s = ds ++ "." ++ String d "%" /\
    ds <> "" /\ PyStr.all_digits ds = true /\ PyStr.is_digit d = true.

(** A text marked as positive: it opens with a plus sign. *)
Definition marked_positive (s : string) : bool := String.prefix "+" s.

(** ** The rest of the page *)

(** The [interest] column as the annotator reads it, [astype(float)]. *)
Definition column (df : DataFrame) : list float :=
  map (fun r => astype_float (interest r)) df.

(** No cell of the column is missing. *)
Definition nan_free (s : list float) : bool := forallb Pandas.notna s.

(** The value [-1.0]. *)
Definition minus_one : float := S754_finite true 4503599627370496 (-52).

(** Rows with their index labels, [0, 1, ...] after [reset_index]. *)
Fixpoint indexed_from {A : Type} (i : Z) (l : list A) : list (Z * A) :=
  match l with
  | [] => []
  | x :: r => (i, x) :: indexed_from (i + 1) r
  end.

(** [trends_an[trends_an["is_anomaly"]].iterrows()]. *)
Definition anomalies (af : AnnotatedFrame) : list (Z * AnnotatedPoint) :=
  filter (fun ir => is_anomaly (snd ir)) (indexed_from 0 af).

(** [str(date_val)], the ISO form of a date. *)
Definition date_str (d : date) : string := strftime_Ymd d.

(** [row["direction"] or "changed"]. *)
Definition direction_label (a : AnnotatedPoint) : string :=
  match direction a with
  | Some d => if String.eqb d "" then "changed" else d
  | None => "changed"
  end.

(** The title of the expander of one anomaly. *)
Definition expander_title (a : AnnotatedPoint) : string :=
  date_str (a_date a) ++ " • " ++ direction_label a ++ " • WoW: " ++
  format_pct (pct_change a).

(** The widget and session keys of one anomaly in [app_openai.py]. *)
Definition button_key (keyword : string) (d : date) (idx : Z) : string :=
  "explain_" ++ keyword ++ "_" ++ date_str d ++ "_" ++ PyStr.dec idx.

Definition explanation_key (keyword : string) (d : date) (idx : Z) : string :=
  "explanation_" ++ keyword ++ "_" ++ date_str d ++ "_" ++ PyStr.dec idx.

(** [s.split(" ")]: the pieces between single spaces, empty ones kept. *)
Fixpoint split_space (s : string) : list string :=
  match s with
  | EmptyString => [""]
  | String c r =>
      if Ascii.eqb c " " then "" :: split_space r
      else match split_space r with
           | h :: t => String c h :: t
           | [] => [String c ""]
           end
  end.

Fixpoint count_spaces (s : string) : nat :=
  match s with
  | EmptyString => O
  | String c r => if Ascii.eqb c " " then S (count_spaces r) else count_spaces r
  end.

(** [%B], the English month names. *)
Definition month_name (m : Z) : string :=
  match m with
  | 1 => "January" | 2 => "February" | 3 => "March" | 4 => "April"
  | 5 => "May" | 6 => "June" | 7 => "July" | 8 => "August"
  | 9 => "September" | 10 => "October" | 11 => "November"
  | _ => "December"
  end%Z.

(** [strftime("%B %d, %Y")]; as for [strftime_Ymd], this is the text for
    years from 1000 on. *)
Definition strftime_BdY (d : date) : string :=
  month_name (month d) ++ " " ++ PyStr.zfill 2 (PyStr.dec (day d)) ++ ", " ++
  PyStr.zfill 4 (PyStr.dec (year d)).

(** [format_timeframe_display]; [strptime] stands for
    [datetime.strptime(_, "%Y-%m-%d")], and the bare [except] swallows
    whatever is raised. *)
Definition format_timeframe_display (strptime : string -> outcome date)
  (timeframe : string) : string :=
  match split_space timeframe with
  | [start_date; end_date] =>
      match strptime start_date with
      | Raises _ => timeframe
      | Returns start_dt =>
          match strptime end_date with
          | Raises _ => timeframe
          | Returns end_dt =>
              strftime_BdY start_dt ++ " - " ++ strftime_BdY end_dt
          end
      end
  | _ => timeframe
  end.

(** More concrete collaborators. *)
Definition keyboard_interrupt : exc := mkexc false "".

Definition answering_api (answer : option unit) : TrendReq unit :=
  mkTrendReq (Returns tt) (fun _ => Returns tt) (fun _ => Returns answer).

Definition key_error : exc := mkexc true "'electric cars'".




(** * Properties *)

(** ** Comparisons of binary64 numbers *)

Section Compare.

Lemma SFcompare_antisym (x y : float) :
  SFcompare y x = option_map CompOpp (SFcompare x y).
Proof.
  destruct x as [sx | sx | | sx mx ex], y as [sy | sy | | sy my ey];
    simpl; try reflexivity;
    try (destruct sx; reflexivity); try (destruct sy; reflexivity);
    try (destruct sx, sy; reflexivity).
  destruct sx, sy; simpl; try reflexivity;
    rewrite (Z.compare_antisym ex ey);
    destruct (ex ?= ey)%Z; simpl; try reflexivity;
    change (Pos.compare_cont Eq my mx)
      with (Pos.compare_cont (CompOpp Eq) my mx);
    rewrite <- (Pos.compare_cont_antisym mx my Eq);
    try rewrite CompOpp_involutive; reflexivity.
Qed.

Lemma eqb_leb_flip (x y : float) : F64.eqb x y = true -> F64.leb y x = true.
Proof.
  unfold F64.eqb, F64.leb, SFeqb, SFleb. rewrite (SFcompare_antisym x y).
  destruct (SFcompare x y) as [[ | | ] | ]; simpl; congruence.
Qed.

Lemma ltb_leb_flip (x y : float) : F64.ltb x y = true -> F64.leb y x = false.
Proof.
  unfold F64.ltb, F64.leb, SFltb, SFleb. rewrite (SFcompare_antisym x y).
  destruct (SFcompare x y) as [[ | | ] | ]; simpl; congruence.
Qed.

Lemma leb_nan_r (t : float) : F64.leb t F64.nan = false.
Proof. destruct t; reflexivity. Qed.

Lemma leb_notnan_r (t p : float) : F64.leb t p = true -> F64.isnan p = false.
Proof. destruct p; [reflexivity | reflexivity | | reflexivity].
       rewrite leb_nan_r. discriminate. Qed.

Lemma isnan_abs (p : float) : F64.isnan (F64.abs p) = F64.isnan p.
Proof. destruct p; reflexivity. Qed.

Lemma div_nan_r (x : float) : F64.div x F64.nan = F64.nan.
Proof. destruct x; reflexivity. Qed.

Lemma sub_nan_l (x : float) : F64.sub F64.nan x = F64.nan.
Proof. destruct x; reflexivity. Qed.

End Compare.

(** ** The columns of the annotated frame *)

Section Columns.

Lemma length_ffill_from last l : List.length (Pandas.ffill_from last l) = List.length l.
Proof.
  revert last; induction l as [ | x r IH]; intros last; simpl.
  - reflexivity.
  - destruct (F64.isnan x); [destruct last | ]; simpl; rewrite IH; reflexivity.
Qed.

Lemma length_removelast_cons {A} (x : A) r :
  List.length (removelast (x :: r)) = List.length r.
Proof.
  revert x; induction r as [ | y r IH]; intros x; [reflexivity | ].
  change (removelast (x :: y :: r)) with (x :: removelast (y :: r)).
  cbn [List.length]. rewrite IH. reflexivity.
Qed.

Lemma length_shift1 l : List.length (Pandas.shift1 l) = List.length l.
Proof.
  destruct l as [ | x r]; [reflexivity | ].
  unfold Pandas.shift1. cbn [List.length]. rewrite length_removelast_cons. reflexivity.
Qed.

Lemma length_map2 {A B C} (f : A -> B -> C) l r :
  List.length l = List.length r -> List.length (Pandas.map2 f l r) = List.length l.
Proof.
  revert r; induction l as [ | a l IH]; intros [ | b r]; simpl; intros H;
    try reflexivity; try discriminate.
  f_equal. apply IH. congruence.
Qed.

Lemma length_pct_change fm s : List.length (Pandas.pct_change fm s) = List.length s.
Proof.
  unfold Pandas.pct_change.
  rewrite length_map2 by (symmetry; apply length_shift1).
  destruct fm; [apply length_ffill_from | reflexivity].
Qed.

Lemma length_assign df pct anom dir :
  List.length pct = List.length df -> List.length anom = List.length df -> List.length dir = List.length df ->
  List.length (assign df pct anom dir) = List.length df.
Proof.
  revert pct anom dir; induction df as [ | r df IH];
    intros [ | p pct] [ | a anom] [ | d dir]; simpl; intros H1 H2 H3;
    try reflexivity; try discriminate.
  f_equal. apply IH; congruence.
Qed.

Lemma project_assign df pct anom dir :
  List.length pct = List.length df -> List.length anom = List.length df -> List.length dir = List.length df ->
  project (assign df pct anom dir) = df.
Proof.
  revert pct anom dir; induction df as [ | r df IH];
    intros [ | p pct] [ | a anom] [ | d dir]; simpl; intros H1 H2 H3;
    try reflexivity; try discriminate.
  destruct r; simpl. f_equal. apply IH; congruence.
Qed.

Lemma assign_rows df pct (f : float -> bool) (g : float -> option string) a :
  In a (assign df pct (map f pct) (map g pct)) ->
  is_anomaly a = f (pct_change a) /\ direction a = g (pct_change a).
Proof.
  revert pct; induction df as [ | r df IH]; intros [ | p pct]; simpl;
    try contradiction.
  intros [<- | Hin]; [split; reflexivity | eauto].
Qed.

(** Every row carries the two classifications of its own [pct_change]. *)
Lemma compute_anomalies_rows fm df t a :
  In a (compute_anomalies fm df t) ->
  is_anomaly a = F64.geb (F64.abs (pct_change a)) t /\
  direction a = direction_of (pct_change a).
Proof.
  destruct df as [ | r df]; [contradiction | ].
  unfold compute_anomalies. apply assign_rows.
Qed.

Lemma project_compute_anomalies fm df t :
  project (compute_anomalies fm df t) = df.
Proof.
  destruct df as [ | r df]; [reflexivity | ].
  unfold compute_anomalies.
  apply project_assign; rewrite ?length_map, length_pct_change, length_map;
    reflexivity.
Qed.

Lemma pct_change_head fm x s :
  hd_error (Pandas.pct_change fm (x :: s)) = Some F64.nan.
Proof.
  assert (E : forall d data, hd_error
     (Pandas.map2 (fun d p => F64.sub (F64.div d p) F64.one) (d :: data)
        (Pandas.shift1 (d :: data))) = Some F64.nan).
  { intros d data. unfold Pandas.shift1. cbn [Pandas.map2 hd_error].
    rewrite div_nan_r, sub_nan_l. reflexivity. }
  unfold Pandas.pct_change. destruct fm; [ | apply E].
  unfold Pandas.ffill. cbn [Pandas.ffill_from]. destruct (F64.isnan x); apply E.
Qed.

End Columns.

(** The direction of a change, by the kind of number it is. *)
Lemma direction_of_cases (p : float) :
  (direction_of p = Some "spiked" <->
     F64.isnan p = false /\ F64.ltb F64.zero p = true) /\
  (direction_of p = Some "dropped" <->
     F64.isnan p = false /\ F64.ltb p F64.zero = true) /\
  (direction_of p = None <->
     F64.isnan p = true \/ F64.eqb p F64.zero = true).
Proof.
  destruct p as [s | s | | s m e]; try destruct s; vm_compute;
    intuition (try discriminate).
Qed.

(** ** The annotator *)

Lemma row_spiked_in fm t :
  In (row_spiked t) (compute_anomalies fm example_frame t).
Proof. apply (nth_error_In _ 1). destruct fm; reflexivity. Qed.

Lemma row_flat_in fm t :
  In (row_flat t) (compute_anomalies fm example_frame t).
Proof. apply (nth_error_In _ 3). destruct fm; reflexivity. Qed.

(** C1, at the input of the specification: on the values
    [100, 135, 90, 90, 0, 50] with threshold 0.30 the value before index 5
    is zero, and the annotator gives index 5 the change [+inf], flags it
    as an anomaly and tags it ['spiked']: a previous value of zero is not
    turned into an undefined change, as the comment above the division
    announces. *)
Theorem zero_previous_value_is_flagged (fm : Pandas.fill_method) :
  option_map interest (nth_error example_frame 4) = Some (NInt 0) /\
  nth_error (compute_anomalies fm example_frame default_threshold) 5 =
    Some (mkann (mkdate 2023 2 5) (NInt 50) (S754_infinity false) true
            (Some "spiked")).
Proof. split; [reflexivity | destruct fm; vm_compute; reflexivity]. Qed.

(** C2: a point is flagged exactly when its relative change is defined
    (not NaN) and its magnitude is at least the threshold; a magnitude
    equal to the threshold is flagged, one strictly below is not.  Under
    the default threshold the magnitude 0.30 itself passes the test, and
    of the changes +30%, -30%, +9.9%, +29%, -22.5%, -29% exactly the first
    two are flagged. *)
Theorem anomaly_iff_threshold (fm : Pandas.fill_method) (df : DataFrame)
  (t : float) (a : AnnotatedPoint) :
  In a (compute_anomalies fm df t) ->
  (is_anomaly a = true <->
     F64.isnan (pct_change a) = false /\
     F64.geb (F64.abs (pct_change a)) t = true) /\
  (F64.eqb (F64.abs (pct_change a)) t = true -> is_anomaly a = true) /\
  (F64.ltb (F64.abs (pct_change a)) t = true -> is_anomaly a = false) /\
  F64.geb (F64.abs F64.lit_0_30) default_threshold = true /\
  map is_anomaly (compute_anomalies fm boundary_frame default_threshold) =
    [false; true; true; false; false; false; false].
Proof.
  intros Hin. destruct (compute_anomalies_rows _ _ _ _ Hin) as [Ha _].
  rewrite Ha. unfold F64.geb.
  split; [split | split; [ | split; [ | split]]].
  - intros H. split; [ | exact H].
    apply leb_notnan_r in H. rewrite isnan_abs in H. exact H.
  - tauto.
  - apply eqb_leb_flip.
  - apply ltb_leb_flip.
  - reflexivity.
  - destruct fm; vm_compute; reflexivity.
Qed.

Lemma anomaly_iff_threshold_witness :
  is_anomaly (row_spiked change_0_35) = true /\
  is_anomaly (row_flat change_0_35) = false /\
  is_anomaly (row_spiked default_threshold) = true.
Proof.
  split; [ | split].
  - destruct (anomaly_iff_threshold Pandas.Pad example_frame change_0_35
                (row_spiked change_0_35) (row_spiked_in _ _))
      as (_ & Heq & _).
    apply Heq. reflexivity.
  - destruct (anomaly_iff_threshold Pandas.Pad example_frame change_0_35
                (row_flat change_0_35) (row_flat_in _ _))
      as (_ & _ & Hlt & _).
    apply Hlt. reflexivity.
  - destruct (anomaly_iff_threshold Pandas.NoFill example_frame
                default_threshold (row_spiked default_threshold)
                (row_spiked_in _ _))
      as (Hiff & _).
    apply Hiff. split; reflexivity.
Defined.

(** C3: the annotated frame has as many rows as the input, and the empty
    frame is annotated to the empty frame. *)
Theorem compute_anomalies_length (fm : Pandas.fill_method) (df : DataFrame)
  (t : float) :
  List.length (compute_anomalies fm df t) = List.length df /\
  compute_anomalies fm [] t = [].
Proof.
  split; [ | reflexivity].
  destruct df as [ | r df]; [reflexivity | ].
  unfold compute_anomalies.
  apply length_assign; rewrite ?length_map, length_pct_change, length_map;
    reflexivity.
Qed.

(** C4: the first row of a non-empty annotated frame has an undefined
    (NaN) change, is not an anomaly and has no direction, whatever the
    threshold. *)
Theorem first_point_undefined (fm : Pandas.fill_method) (r : ObservationPoint)
  (df : DataFrame) (t : float) :
  hd_error (compute_anomalies fm (r :: df) t) =
    Some (mkann (date_of r) (interest r) F64.nan false None).
Proof.
  unfold compute_anomalies. cbn [map].
  pose proof (pct_change_head fm (astype_float (interest r))
                (map (fun r0 => astype_float (interest r0)) df)) as H.
  destruct (Pandas.pct_change fm _) as [ | p pct]; [discriminate | ].
  injection H as ->. cbn [map assign hd_error].
  unfold F64.geb. rewrite leb_nan_r. reflexivity.
Qed.

(** C5: the direction of a row is ['spiked'] exactly when its change is
    defined and above zero, ['dropped'] exactly when it is defined and
    below zero, and absent exactly when the change is undefined or equal
    to zero. *)
Theorem direction_iff_sign (fm : Pandas.fill_method) (df : DataFrame)
  (t : float) (a : AnnotatedPoint) :
  In a (compute_anomalies fm df t) ->
  (direction a = Some "spiked" <->
     F64.isnan (pct_change a) = false /\ F64.gtb (pct_change a) F64.zero = true) /\
  (direction a = Some "dropped" <->
     F64.isnan (pct_change a) = false /\ F64.ltb (pct_change a) F64.zero = true) /\
  (direction a = None <->
     F64.isnan (pct_change a) = true \/ F64.eqb (pct_change a) F64.zero = true).
Proof.
  intros Hin. destruct (compute_anomalies_rows _ _ _ _ Hin) as [_ Hd].
  rewrite Hd. apply direction_of_cases.
Qed.

Lemma direction_iff_sign_witness :
  F64.isnan change_0_35 = false /\ F64.gtb change_0_35 F64.zero = true.
Proof.
  destruct (direction_iff_sign Pandas.Pad example_frame default_threshold
              (row_spiked default_threshold) (row_spiked_in _ _))
    as (Hup & _).
  apply Hup. reflexivity.
Defined.

(** C6: annotating is a function of the frame and the threshold (two runs
    agree), it hands back the base columns unchanged, and annotating the
    projection of an annotated frame gives that annotated frame again. *)
Theorem compute_anomalies_idempotent (fm : Pandas.fill_method) (df : DataFrame)
  (t : float) :
  (forall out1 out2,
     out1 = compute_anomalies fm df t -> out2 = compute_anomalies fm df t ->
     out1 = out2) /\
  project (compute_anomalies fm df t) = df /\
  compute_anomalies fm (project (compute_anomalies fm df t)) t =
    compute_anomalies fm df t.
Proof.
  split; [intros; congruence | ].
  split; [apply project_compute_anomalies | ].
  rewrite project_compute_anomalies. reflexivity.
Qed.

(** C10: under a threshold above zero, a flagged row always has the
    direction ['spiked'] or ['dropped']. *)
Theorem flagged_has_direction (fm : Pandas.fill_method) (df : DataFrame)
  (t : float) (a : AnnotatedPoint) :
  In a (compute_anomalies fm df t) ->
  F64.ltb F64.zero t = true ->
  is_anomaly a = true ->
  direction a = Some "spiked" \/ direction a = Some "dropped".
Proof.
  intros Hin Ht Ha.
  destruct (compute_anomalies_rows _ _ _ _ Hin) as [Ea Ed].
  rewrite Ed. rewrite Ea in Ha. clear Hin Ea Ed.
  destruct (pct_change a) as [s | s | | s m e].
  - apply ltb_leb_flip in Ht. unfold F64.geb in Ha.
    change (F64.abs (S754_zero s)) with F64.zero in Ha. congruence.
  - destruct s; [right | left]; reflexivity.
  - unfold F64.geb in Ha. change (F64.abs S754_nan) with F64.nan in Ha.
    rewrite leb_nan_r in Ha. discriminate.
  - destruct s; [right | left]; reflexivity.
Qed.

Lemma flagged_has_direction_witness :
  direction (row_spiked default_threshold) = Some "spiked" \/
  direction (row_spiked default_threshold) = Some "dropped".
Proof.
  apply (flagged_has_direction Pandas.Pad example_frame default_threshold
           (row_spiked default_threshold) (row_spiked_in _ _));
    reflexivity.
Defined.

(** ** Substrings *)

Section Substrings.

Lemma string_app_assoc (a b c : string) : (a ++ b) ++ c = a ++ b ++ c.
Proof. induction a as [ | x a IH]; simpl; [ | rewrite IH]; reflexivity. Qed.

Lemma prefix_app (s t : string) : String.prefix s (s ++ t) = true.
Proof.
  induction s as [ | c s IH]; simpl; [destruct t; reflexivity | ].
  destruct (ascii_dec c c); [exact IH | congruence].
Qed.

Lemma contains_unfold (sub s : string) :
  PyStr.contains sub s =
    if String.prefix sub s then true
    else match s with
         | EmptyString => false
         | String _ r => PyStr.contains sub r
         end.
Proof. destruct s; reflexivity. Qed.

Lemma contains_of_prefix (sub s : string) :
  String.prefix sub s = true -> PyStr.contains sub s = true.
Proof. intros H. rewrite contains_unfold, H. reflexivity. Qed.

Lemma contains_append_l (pre sub s : string) :
  PyStr.contains sub s = true -> PyStr.contains sub (pre ++ s) = true.
Proof.
  intros H. induction pre as [ | c pre IH]; [exact H | ].
  change (String c pre ++ s) with (String c (pre ++ s)).
  rewrite contains_unfold, IH. destruct (String.prefix _ _); reflexivity.
Qed.

Lemma string_app_nil_r (s : string) : s ++ "" = s.
Proof. induction s as [ | c s IH]; simpl; congruence. Qed.

Lemma contains_suffix (pre sub : string) :
  PyStr.contains sub (pre ++ sub) = true.
Proof.
  apply contains_append_l, contains_of_prefix.
  rewrite <- (string_app_nil_r sub) at 2. apply prefix_app.
Qed.

Lemma contains_middle (pre sub post : string) :
  PyStr.contains sub (pre ++ sub ++ post) = true.
Proof. apply contains_append_l, contains_of_prefix, prefix_app. Qed.

End Substrings.

(** ** Decimal digits *)

Section Digits.

Lemma string_of_uint_digits (u : Decimal.uint) :
  PyStr.all_digits (NilEmpty.string_of_uint u) = true.
Proof. induction u; simpl; auto. Qed.

Lemma dec_digits (n : Z) : PyStr.all_digits (PyStr.dec n) = true.
Proof. apply string_of_uint_digits. Qed.

Lemma dec_nonempty (n : Z) : PyStr.dec n <> "".
Proof.
  unfold PyStr.dec. destruct (Z.to_N n) as [ | p]; [discriminate | ].
  pose proof (Unsigned.to_uint_nonnil p) as H. unfold N.to_uint.
  destruct (Pos.to_uint p); simpl; congruence.
Qed.

Lemma dec_one_digit (r : Z) :
  (0 <= r < 10)%Z -> exists d, PyStr.dec r = String d "" /\ PyStr.is_digit d = true.
Proof.
  intros H.
  assert (E : (r = 0 \/ r = 1 \/ r = 2 \/ r = 3 \/ r = 4 \/ r = 5 \/ r = 6
               \/ r = 7 \/ r = 8 \/ r = 9)%Z) by lia.
  repeat (destruct E as [-> | E]; [eexists; split; reflexivity | ]).
  subst r. eexists; split; reflexivity.
Qed.

Lemma zfill_fits (w : nat) (bound n : Z) :
  forallb (fits w) (seq 0 (Z.to_nat bound)) = true ->
  (0 <= n < bound)%Z ->
  String.length (PyStr.zfill w (PyStr.dec n)) = w /\
  PyStr.all_digits (PyStr.zfill w (PyStr.dec n)) = true.
Proof.
  intros Hall Hn. rewrite forallb_forall in Hall.
  specialize (Hall (Z.to_nat n)). unfold fits in Hall.
  rewrite Z2Nat.id in Hall by lia.
  apply andb_prop in Hall; [ | apply in_seq; lia].
  destruct Hall as [Hl Hd]. apply Nat.eqb_eq in Hl. split; assumption.
Qed.

Lemma iso_shape_of_parts (y m d : string) :
  String.length y = 4%nat -> PyStr.all_digits y = true ->
  String.length m = 2%nat -> PyStr.all_digits m = true ->
  String.length d = 2%nat -> PyStr.all_digits d = true ->
  iso_shape (y ++ "-" ++ m ++ "-" ++ d) = true.
Proof.
  destruct y as [ | y1 [ | y2 [ | y3 [ | y4 [ | ? ?]]]]]; try discriminate.
  destruct m as [ | m1 [ | m2 [ | ? ?]]]; try discriminate.
  destruct d as [ | d1 [ | d2 [ | ? ?]]]; try discriminate.
  cbn [String.length PyStr.all_digits append iso_shape].
  intros _ Hy _ Hm _ Hd.
  repeat (apply andb_prop in Hy; destruct Hy as [?Hy Hy]).
  repeat (apply andb_prop in Hm; destruct Hm as [?Hm Hm]).
  repeat (apply andb_prop in Hd; destruct Hd as [?Hd Hd]).
  repeat match goal with H : _ = true |- _ => rewrite H; clear H end.
  reflexivity.
Qed.

Lemma strftime_Ymd_iso (d : date) :
  valid_date d = true -> iso_shape (strftime_Ymd d) = true.
Proof.
  unfold valid_date. intros H.
  repeat (apply andb_prop in H; destruct H as [H ?]).
  repeat match goal with
         | H : (_ <=? _)%Z = true |- _ => apply Z.leb_le in H
         end.
  destruct (zfill_fits 4 10000 (year d)) as [? ?];
    [vm_compute; reflexivity | lia | ].
  destruct (zfill_fits 2 13 (month d)) as [? ?];
    [vm_compute; reflexivity | lia | ].
  destruct (zfill_fits 2 32 (day d)) as [? ?];
    [vm_compute; reflexivity | lia | ].
  apply iso_shape_of_parts; assumption.
Qed.

End Digits.

(** ** The fetcher *)

Lemma fetch_handler_recovers (e : exc) :
  is_Exception e = true ->
  result_of (fetch_handler e) = Returns [] /\
  st_errors (events_of (fetch_handler e)) =
    [if rate_limited e then rate_limit_message else fetch_failed_message e].
Proof.
  intros He. unfold fetch_handler. rewrite He.
  destruct (rate_limited e); split; reflexivity.
Qed.

Lemma messages_distinct (e : exc) : rate_limit_message <> fetch_failed_message e.
Proof. unfold rate_limit_message, fetch_failed_message. simpl. discriminate. Qed.

(** C7: whatever [Exception] the trends collaborator raises, the fetcher
    hands back the empty frame and not the exception; it reports the
    rate-limit message exactly when the test for the 429 marker succeeds
    on the error's text, and otherwise the fetch-failed message, which
    is a different text and carries the text of the error. *)
Theorem fetcher_never_raises (raw_frame : Type) (raw_empty : raw_frame -> bool)
  (normalize : string -> raw_frame -> outcome DataFrame)
  (api : TrendReq raw_frame) (keyword : string) (e : exc) :
  collaborator_raises api keyword e ->
  is_Exception e = true ->
  let run := fetch_trends_2023_us raw_empty normalize api keyword in
  result_of run = Returns [] /\
  (rate_limited e = true <-> st_errors (events_of run) = [rate_limit_message]) /\
  (rate_limited e = false <->
     st_errors (events_of run) = [fetch_failed_message e]) /\
  PyStr.contains (str_of e) (fetch_failed_message e) = true.
Proof.
  intros Hraise He run.
  assert (Hrun : result_of run = Returns [] /\
                 st_errors (events_of run) =
                   [if rate_limited e then rate_limit_message
                    else fetch_failed_message e]).
  { destruct (fetch_handler_recovers e He) as [Hr Hs].
    subst run. unfold fetch_trends_2023_us, fetch_body.
    destruct Hraise as [H1 | H1 H2 | H1 H2 H3].
    - rewrite H1. cbn [ret bind]. destruct (fetch_handler e) as [r l].
      split; [exact Hr | exact Hs].
    - rewrite H1, H2. cbn [ret bind]. destruct (fetch_handler e) as [r l].
      split; [exact Hr | exact Hs].
    - rewrite H1, H2, H3. cbn [ret bind emit].
      destruct (fetch_handler e) as [r l]. split; [exact Hr | exact Hs]. }
  destruct Hrun as [Hr Hs]. rewrite Hs.
  pose proof (messages_distinct e) as Hd.
  split; [exact Hr | ].
  split; [ | split]; [ | | apply contains_suffix].
  - destruct (rate_limited e); split; intros H;
      try reflexivity; try discriminate; congruence.
  - destruct (rate_limited e); split; intros H;
      try reflexivity; try discriminate; congruence.
Qed.

Lemma fetcher_never_raises_witness :
  result_of (fetch_trends_2023_us (fun _ : unit => true)
               (fun _ _ => Returns []) (failing_api too_many_requests)
               "electric cars") = Returns [] /\
  st_errors (events_of
    (fetch_trends_2023_us (fun _ : unit => true) (fun _ _ => Returns [])
       (failing_api too_many_requests) "electric cars")) =
    [rate_limit_message] /\
  st_errors (events_of
    (fetch_trends_2023_us (fun _ : unit => true) (fun _ _ => Returns [])
       (failing_api connection_reset) "electric cars")) =
    [fetch_failed_message connection_reset].
Proof.
  assert (R : forall e, collaborator_raises (failing_api e) "electric cars" e).
  { intros e. apply raises_interest_over_time; reflexivity. }
  destruct (fetcher_never_raises unit (fun _ => true) (fun _ _ => Returns [])
              (failing_api too_many_requests) "electric cars"
              too_many_requests (R _) eq_refl) as (H1 & H2 & _).
  destruct (fetcher_never_raises unit (fun _ => true) (fun _ _ => Returns [])
              (failing_api connection_reset) "electric cars"
              connection_reset (R _) eq_refl) as (_ & _ & H3 & _).
  split; [exact H1 | split].
  - apply H2. reflexivity.
  - apply H3. reflexivity.
Defined.

(** ** The explanation step without a credential *)





(** ** The formatter *)

Lemma binary_round_aux_cases (s : bool) (m e : Z) (l : location) :
  let y := binary_round_aux F64.prec F64.emax s m e l in
  y = S754_nan \/ y = S754_zero s \/ y = S754_infinity s \/
  exists m' e', y = S754_finite s m' e'.
Proof.
  unfold binary_round_aux.
  destruct (shr_fexp F64.prec F64.emax m e l) as [mrs' e'].
  destruct (shr_fexp F64.prec F64.emax _ e' loc_Exact) as [mrs'' e''].
  destruct (shr_m mrs'') as [ | p | p]; auto.
  destruct (e'' <=? F64.emax - F64.prec)%Z; eauto 6.
Qed.

Lemma of_int_100 : F64.of_int 100 = S754_finite false 7036874417766400 (-46).
Proof. vm_compute. reflexivity. Qed.

(** The text of a finite number: sign, digits, point, one digit. *)
Lemma format_1f_finite (y : float) :
  F64.is_finite y = true ->
  exists ds d,
    Fmt.format_1f y = Fmt.sign (F64.signbit y) ++ ds ++ "." ++ String d "" /\
    ds <> "" /\ PyStr.all_digits ds = true /\ PyStr.is_digit d = true.
Proof.
  destruct y as [s | s | | s m e]; try discriminate; intros _.
  - exists "0", "0"%char. repeat split. discriminate.
  - cbn [Fmt.format_1f F64.signbit].
    destruct (dec_one_digit (Fmt.tenths m e mod 10)) as (d & Hd & Hdig).
    { apply Z.mod_pos_bound. lia. }
    exists (PyStr.dec (Fmt.tenths m e / 10)), d. rewrite Hd.
    repeat split; [apply dec_nonempty | apply dec_digits | exact Hdig].
Qed.

Lemma mul_100_sign (x : float) :
  F64.is_finite (F64.mul x (F64.of_int 100)) = true ->
  F64.signbit (F64.mul x (F64.of_int 100)) = F64.signbit x.
Proof.
  rewrite of_int_100.
  destruct x as [s | s | | s m e]; try discriminate.
  - intros _. destruct s; reflexivity.
  - unfold F64.mul, SFmul.
    destruct (binary_round_aux_cases (xorb s false)
                (Z.pos (m * 7036874417766400)) (e + -46) loc_Exact)
      as [E | [E | [E | (m' & e' & E)]]];
      rewrite E; try discriminate; intros _; destruct s; reflexivity.
Qed.

(** C9 as stated fails: the change 100 -> 135 is positive and is printed
    as "35.0%", with nothing that marks it as positive. *)
Lemma format_pct_positive_unmarked :
  F64.gtb change_0_35 F64.zero = true /\
  format_pct change_0_35 = "35.0%" /\
  marked_positive (format_pct change_0_35) = false.
Proof. repeat split; vm_compute; reflexivity. Qed.

(** C9, amended: the formatter prints an undefined (NaN) change as the
    em-dash, and a change whose hundredfold is finite as a percentage
    with exactly one decimal place, preceded by a minus sign when the
    change carries the negative sign and by nothing when it does not; a
    change below zero carries the negative sign, one above zero does
    not. *)
Theorem format_pct_shape (x : float) :
  F64.is_finite (F64.mul x (F64.of_int 100)) = true ->
  format_pct F64.nan = em_dash /\
  (exists body, format_pct x = Fmt.sign (F64.signbit x) ++ body /\
                one_decimal_percentage body) /\
  (F64.ltb x F64.zero = true -> F64.signbit x = true) /\
  (F64.gtb x F64.zero = true -> F64.signbit x = false).
Proof.
  intros Hfin. split; [reflexivity | split; [ | split]].
  - unfold format_pct.
    replace (Pandas.isna x) with false
      by (destruct x; try reflexivity; discriminate).
    destruct (format_1f_finite _ Hfin) as (ds & d & E & Hne & Hds & Hd).
    rewrite E, (mul_100_sign x Hfin).
    exists (ds ++ "." ++ String d "%"). split.
    + rewrite !string_app_assoc. reflexivity.
    + exists ds, d. repeat split; assumption.
  - destruct x as [s | s | | s m e]; try destruct s; try discriminate;
      reflexivity.
  - destruct x as [s | s | | s m e]; try destruct s; try discriminate;
      reflexivity.
Qed.

Lemma format_pct_shape_witness :
  exists body, format_pct change_0_35 = "" ++ body /\
               one_decimal_percentage body.
Proof.
  destruct (format_pct_shape change_0_35 eq_refl) as (_ & H & _).
  exact H.
Defined.


(** * Further properties of the annotator *)

Section Rows.

Lemma nth_error_removelast {A : Type} (l : list A) (i : nat) :
  (S i < List.length l)%nat -> nth_error (removelast l) i = nth_error l i.
Proof.
  revert i; induction l as [ | x l IH]; intros i H; [inversion H | ].
  destruct l as [ | y l]; [cbn in H; lia | ].
  change (removelast (x :: y :: l)) with (x :: removelast (y :: l)).
  destruct i as [ | i]; [reflexivity | ].
  cbn [nth_error]. apply IH. cbn [List.length] in *. lia.
Qed.

Lemma nth_error_shift1 (s : list float) (i : nat) (x : float) :
  nth_error s (S i) = Some x ->
  nth_error (Pandas.shift1 s) (S i) = nth_error s i.
Proof.
  intros H. assert (L : (S i < List.length s)%nat).
  { apply nth_error_Some. congruence. }
  destruct s as [ | y s]; [discriminate | ].
  unfold Pandas.shift1. cbn [nth_error]. apply nth_error_removelast, L.
Qed.

Lemma nth_error_map2 {A B C : Type} (f : A -> B -> C) l r (n : nat) :
  nth_error (Pandas.map2 f l r) n =
    match nth_error l n, nth_error r n with
    | Some a, Some b => Some (f a b)
    | _, _ => None
    end.
Proof.
  revert r n; induction l as [ | a l IH]; intros [ | b r] [ | n];
    cbn [Pandas.map2 nth_error]; try reflexivity.
  - destruct (nth_error l n); reflexivity.
  - apply IH.
Qed.

Lemma ffill_nan_free (last : option float) (s : list float) :
  nan_free s = true -> Pandas.ffill_from last s = s.
Proof.
  revert last; induction s as [ | x s IH]; intros last H; [reflexivity | ].
  cbn [nan_free forallb] in H. apply andb_prop in H. destruct H as [Hx Hs].
  unfold Pandas.notna in Hx. apply negb_true_iff in Hx.
  cbn [Pandas.ffill_from]. rewrite Hx. f_equal. apply IH, Hs.
Qed.

Lemma pct_change_nth (fm : Pandas.fill_method) (s : list float) (i : nat)
  (x0 x1 : float) :
  fm = Pandas.NoFill \/ nan_free s = true ->
  nth_error s i = Some x0 -> nth_error s (S i) = Some x1 ->
  nth_error (Pandas.pct_change fm s) (S i) =
    Some (F64.sub (F64.div x1 x0) F64.one).
Proof.
  intros Hfm H0 H1. unfold Pandas.pct_change.
  replace (match fm with Pandas.Pad => Pandas.ffill s | Pandas.NoFill => s end)
    with s.
  - rewrite nth_error_map2, (nth_error_shift1 s i x1 H1), H0, H1. reflexivity.
  - destruct fm; [ | reflexivity].
    destruct Hfm as [Hfm | Hfm]; [discriminate | ].
    symmetry. apply ffill_nan_free, Hfm.
Qed.

Lemma nth_error_assign df pct (f : float -> bool) (g : float -> option string)
  (n : nat) :
  nth_error (assign df pct (map f pct) (map g pct)) n =
    match nth_error df n, nth_error pct n with
    | Some r, Some p => Some (mkann (date_of r) (interest r) p (f p) (g p))
    | _, _ => None
    end.
Proof.
  revert pct n; induction df as [ | r df IH]; intros [ | p pct] [ | n];
    cbn [assign map nth_error]; try reflexivity.
  - destruct (nth_error df n); reflexivity.
  - apply IH.
Qed.

End Rows.

Lemma compute_anomalies_eq (fm : Pandas.fill_method) (df : DataFrame)
  (t : float) :
  compute_anomalies fm df t =
    assign df (Pandas.pct_change fm (column df))
      (map (fun p => F64.geb (F64.abs p) t) (Pandas.pct_change fm (column df)))
      (map direction_of (Pandas.pct_change fm (column df))).
Proof. destruct df; [destruct fm | ]; reflexivity. Qed.

Lemma compute_anomalies_nth (fm : Pandas.fill_method) (df : DataFrame)
  (t : float) (i : nat) (r0 r1 : ObservationPoint) :
  fm = Pandas.NoFill \/ nan_free (column df) = true ->
  nth_error df i = Some r0 ->
  nth_error df (S i) = Some r1 ->
  let p := F64.sub (F64.div (astype_float (interest r1))
                      (astype_float (interest r0))) F64.one in
  nth_error (compute_anomalies fm df t) (S i) =
    Some (mkann (date_of r1) (interest r1) p (F64.geb (F64.abs p) t)
            (direction_of p)).
Proof.
  intros Hfm H0 H1 p.
  rewrite compute_anomalies_eq, nth_error_assign, H1.
  rewrite (pct_change_nth fm (column df) i
             (astype_float (interest r0)) (astype_float (interest r1)) Hfm).
  - reflexivity.
  - unfold column. rewrite nth_error_map, H0. reflexivity.
  - unfold column. rewrite nth_error_map, H1. reflexivity.
Qed.

(** X1: on a column without missing cells (or when pandas does not pad),
    the row at index [i+1] carries the change
    [value[i+1] / value[i] - 1], computed in binary64 against the row just
    before it, and its flag and direction are those of that change. *)
Theorem change_against_previous (fm : Pandas.fill_method) (df : DataFrame)
  (t : float) (i : nat) (r0 r1 : ObservationPoint) :
  fm = Pandas.NoFill \/ nan_free (column df) = true ->
  nth_error df i = Some r0 ->
  nth_error df (S i) = Some r1 ->
  let p := F64.sub (F64.div (astype_float (interest r1))
                      (astype_float (interest r0))) F64.one in
  nth_error (compute_anomalies fm df t) (S i) =
    Some (mkann (date_of r1) (interest r1) p (F64.geb (F64.abs p) t)
            (direction_of p)).
Proof. exact (compute_anomalies_nth fm df t i r0 r1). Qed.

Lemma change_against_previous_witness :
  nth_error (compute_anomalies Pandas.Pad example_frame default_threshold) 2 =
    Some (mkann (mkdate 2023 1 15) (NInt 90)
            (F64.sub (F64.div (F64.of_int 90) (F64.of_int 135)) F64.one)
            (F64.geb (F64.abs (F64.sub (F64.div (F64.of_int 90)
                                          (F64.of_int 135)) F64.one))
               default_threshold)
            (direction_of (F64.sub (F64.div (F64.of_int 90) (F64.of_int 135))
                             F64.one))).
Proof.
  apply (change_against_previous Pandas.Pad example_frame default_threshold 1
           (reading 1 8 135) (reading 1 15 90));
    [right; reflexivity | reflexivity | reflexivity].
Defined.

(** ** Zero readings *)

Lemma eqb_zero_inv (x : float) :
  F64.eqb x F64.zero = true -> exists s, x = S754_zero s.
Proof.
  destruct x as [s | s | | s m e]; try destruct s; try discriminate; eauto.
Qed.

Lemma finite_nonzero_inv (x : float) :
  F64.is_finite x = true -> F64.eqb x F64.zero = false ->
  exists s m e, x = S754_finite s m e.
Proof.
  destruct x as [s | s | | s m e]; try discriminate; eauto.
Qed.

Lemma one_value : F64.one = S754_finite false 4503599627370496 (-52).
Proof. vm_compute. reflexivity. Qed.

(** Padding leaves a cell that is not missing as it is. *)
Lemma nth_error_ffill_from (last : option float) (s : list float) (i : nat)
  (x : float) :
  nth_error s i = Some x -> F64.isnan x = false ->
  nth_error (Pandas.ffill_from last s) i = Some x.
Proof.
  revert last i; induction s as [ | y s IH]; intros last [ | i] H Hx;
    try discriminate; cbn [Pandas.ffill_from nth_error] in *.
  - injection H as ->. rewrite Hx. reflexivity.
  - destruct (F64.isnan y); [destruct last | ]; cbn [nth_error];
      apply IH; assumption.
Qed.

(** Between two cells that are not missing the change is the quotient
    minus one, with or without padding. *)
Lemma pct_change_nth_values (fm : Pandas.fill_method) (s : list float)
  (i : nat) (x0 x1 : float) :
  nth_error s i = Some x0 -> nth_error s (S i) = Some x1 ->
  F64.isnan x0 = false -> F64.isnan x1 = false ->
  nth_error (Pandas.pct_change fm s) (S i) =
    Some (F64.sub (F64.div x1 x0) F64.one).
Proof.
  intros H0 H1 N0 N1. destruct fm.
  - unfold Pandas.pct_change, Pandas.ffill.
    pose proof (nth_error_ffill_from None s i x0 H0 N0) as F0.
    pose proof (nth_error_ffill_from None s (S i) x1 H1 N1) as F1.
    rewrite nth_error_map2, (nth_error_shift1 _ i x1 F1), F0, F1.
    reflexivity.
  - apply pct_change_nth; auto.
Qed.

Lemma compute_anomalies_nth_values (fm : Pandas.fill_method) (df : DataFrame)
  (t : float) (i : nat) (r0 r1 : ObservationPoint) :
  nth_error df i = Some r0 ->
  nth_error df (S i) = Some r1 ->
  F64.isnan (astype_float (interest r0)) = false ->
  F64.isnan (astype_float (interest r1)) = false ->
  let p := F64.sub (F64.div (astype_float (interest r1))
                      (astype_float (interest r0))) F64.one in
  nth_error (compute_anomalies fm df t) (S i) =
    Some (mkann (date_of r1) (interest r1) p (F64.geb (F64.abs p) t)
            (direction_of p)).
Proof.
  intros H0 H1 N0 N1 p.
  rewrite compute_anomalies_eq, nth_error_assign, H1.
  rewrite (pct_change_nth_values fm (column df) i
             (astype_float (interest r0)) (astype_float (interest r1)));
    try assumption.
  - reflexivity.
  - unfold column. rewrite nth_error_map, H0. reflexivity.
  - unfold column. rewrite nth_error_map, H1. reflexivity.
Qed.

(** X2: when a reading of zero follows a reading of zero, the change is
    undefined (NaN), the row is not flagged and it has no direction, in
    every frame and with or without padding. *)
Theorem zero_after_zero_undefined (fm : Pandas.fill_method) (df : DataFrame)
  (t : float) (i : nat) (r0 r1 : ObservationPoint) :
  nth_error df i = Some r0 ->
  nth_error df (S i) = Some r1 ->
  F64.eqb (astype_float (interest r0)) F64.zero = true ->
  F64.eqb (astype_float (interest r1)) F64.zero = true ->
  nth_error (compute_anomalies fm df t) (S i) =
    Some (mkann (date_of r1) (interest r1) F64.nan false None).
Proof.
  intros H0 H1 Z0 Z1.
  destruct (eqb_zero_inv _ Z0) as [s0 E0].
  destruct (eqb_zero_inv _ Z1) as [s1 E1].
  rewrite (compute_anomalies_nth_values fm df t i r0 r1 H0 H1)
    by (rewrite ?E0, ?E1; reflexivity).
  rewrite E0, E1.
  change (F64.div (S754_zero s1) (S754_zero s0)) with F64.nan.
  rewrite sub_nan_l. unfold F64.geb. change (F64.abs F64.nan) with F64.nan.
  rewrite leb_nan_r. reflexivity.
Qed.

Lemma zero_after_zero_undefined_witness :
  nth_error (compute_anomalies Pandas.Pad
               [mkobs (mkdate 2023 1 1) (NFloat F64.nan); reading 1 8 0;
                reading 1 15 0]
               default_threshold) 2 =
    Some (mkann (mkdate 2023 1 15) (NInt 0) F64.nan false None).
Proof.
  apply (zero_after_zero_undefined Pandas.Pad
           [mkobs (mkdate 2023 1 1) (NFloat F64.nan); reading 1 8 0;
            reading 1 15 0] default_threshold 1
           (reading 1 8 0) (reading 1 15 0));
    reflexivity.
Defined.

(** X3: when a reading of zero follows a finite reading other than zero,
    the change is exactly -1 (a drop of 100%), the direction is
    ['dropped'], and the row is flagged exactly when the threshold is at
    most 1, in every frame and with or without padding. *)
Theorem drop_to_zero (fm : Pandas.fill_method) (df : DataFrame)
  (t : float) (i : nat) (r0 r1 : ObservationPoint) :
  nth_error df i = Some r0 ->
  nth_error df (S i) = Some r1 ->
  F64.is_finite (astype_float (interest r0)) = true ->
  F64.eqb (astype_float (interest r0)) F64.zero = false ->
  F64.eqb (astype_float (interest r1)) F64.zero = true ->
  nth_error (compute_anomalies fm df t) (S i) =
    Some (mkann (date_of r1) (interest r1) minus_one (F64.leb t F64.one)
            (Some "dropped")).
Proof.
  intros H0 H1 F0 N0 Z1.
  destruct (finite_nonzero_inv _ F0 N0) as (s0 & m0 & e0 & E0).
  destruct (eqb_zero_inv _ Z1) as [s1 E1].
  rewrite (compute_anomalies_nth_values fm df t i r0 r1 H0 H1)
    by (rewrite ?E0, ?E1; reflexivity).
  rewrite E0, E1.
  change (F64.div (S754_zero s1) (S754_finite s0 m0 e0))
    with (S754_zero (xorb s1 s0)).
  rewrite one_value.
  change (F64.sub (S754_zero (xorb s1 s0))
            (S754_finite false 4503599627370496 (-52))) with minus_one.
  reflexivity.
Qed.

Lemma drop_to_zero_witness :
  nth_error (compute_anomalies Pandas.Pad
               [mkobs (mkdate 2023 1 1) (NFloat F64.nan); reading 1 8 90;
                reading 1 15 0] default_threshold) 2 =
    Some (mkann (mkdate 2023 1 15) (NInt 0) minus_one true (Some "dropped")).
Proof.
  apply (drop_to_zero Pandas.Pad
           [mkobs (mkdate 2023 1 1) (NFloat F64.nan); reading 1 8 90;
            reading 1 15 0] default_threshold 1
           (reading 1 8 90) (reading 1 15 0));
    reflexivity.
Defined.

(** X4: when a finite reading above zero follows a reading of (positive)
    zero, the division by zero gives the change [+inf]: the row is flagged
    under every threshold that is a number, and its direction is
    ['spiked'], in every frame and with or without padding. *)
Theorem rise_from_zero_is_infinite (fm : Pandas.fill_method) (df : DataFrame)
  (t : float) (i : nat) (r0 r1 : ObservationPoint) :
  nth_error df i = Some r0 ->
  nth_error df (S i) = Some r1 ->
  astype_float (interest r0) = F64.zero ->
  F64.is_finite (astype_float (interest r1)) = true ->
  F64.gtb (astype_float (interest r1)) F64.zero = true ->
  F64.isnan t = false ->
  nth_error (compute_anomalies fm df t) (S i) =
    Some (mkann (date_of r1) (interest r1) (S754_infinity false) true
            (Some "spiked")).
Proof.
  intros H0 H1 Z0 F1 P1 Ht.
  rewrite (compute_anomalies_nth_values fm df t i r0 r1 H0 H1);
    [ | rewrite Z0; reflexivity
      | destruct (astype_float (interest r1)); try discriminate; reflexivity].
  rewrite Z0.
  destruct (astype_float (interest r1)) as [s | s | | s m e];
    try discriminate; destruct s; try discriminate.
  change (F64.div (S754_finite false m e) F64.zero) with (S754_infinity false).
  rewrite one_value.
  change (F64.sub (S754_infinity false)
            (S754_finite false 4503599627370496 (-52)))
    with (S754_infinity false).
  destruct t as [st | st | | st mt et]; try discriminate;
    try destruct st; reflexivity.
Qed.

Lemma rise_from_zero_is_infinite_witness :
  nth_error (compute_anomalies Pandas.Pad
               [mkobs (mkdate 2023 1 1) (NFloat F64.nan); reading 1 8 0;
                reading 1 15 50] (F64.of_int 1000)) 2 =
    Some (mkann (mkdate 2023 1 15) (NInt 50) (S754_infinity false) true
            (Some "spiked")).
Proof.
  apply (rise_from_zero_is_infinite Pandas.Pad
           [mkobs (mkdate 2023 1 1) (NFloat F64.nan); reading 1 8 0;
            reading 1 15 50] (F64.of_int 1000) 1
           (reading 1 8 0) (reading 1 15 50));
    reflexivity.
Defined.

(** ** Later rows do not reach back *)

Section Prefix.

Lemma firstn_ffill_from (n : nat) (last : option float) (l : list float) :
  Pandas.ffill_from last (firstn n l) = firstn n (Pandas.ffill_from last l).
Proof.
  revert last l; induction n as [ | n IH]; intros last [ | x l];
    try reflexivity.
  cbn [firstn Pandas.ffill_from].
  destruct (F64.isnan x); [destruct last | ]; cbn [firstn]; rewrite IH;
    reflexivity.
Qed.

Lemma firstn_removelast_cons {A : Type} (n : nat) (x : A) (l : list A) :
  removelast (x :: firstn n l) = firstn n (removelast (x :: l)).
Proof.
  revert x l; induction n as [ | n IH]; intros x [ | y l]; try reflexivity.
  change (removelast (x :: firstn (S n) (y :: l)))
    with (x :: removelast (y :: firstn n l)).
  change (removelast (x :: y :: l)) with (x :: removelast (y :: l)).
  cbn [firstn]. rewrite IH. reflexivity.
Qed.

Lemma firstn_shift1 (n : nat) (l : list float) :
  Pandas.shift1 (firstn n l) = firstn n (Pandas.shift1 l).
Proof.
  destruct n as [ | n], l as [ | x l]; try reflexivity.
  unfold Pandas.shift1. cbn [firstn]. rewrite firstn_removelast_cons.
  reflexivity.
Qed.

Lemma firstn_map2 {A B C : Type} (f : A -> B -> C) (n : nat) l r :
  Pandas.map2 f (firstn n l) (firstn n r) = firstn n (Pandas.map2 f l r).
Proof.
  revert l r; induction n as [ | n IH]; intros [ | a l] [ | b r];
    try reflexivity.
  cbn [firstn Pandas.map2]. rewrite IH. reflexivity.
Qed.

Lemma firstn_pct_change (fm : Pandas.fill_method) (n : nat) (s : list float) :
  Pandas.pct_change fm (firstn n s) = firstn n (Pandas.pct_change fm s).
Proof.
  unfold Pandas.pct_change, Pandas.ffill.
  destruct fm; rewrite ?firstn_ffill_from, firstn_shift1, firstn_map2;
    reflexivity.
Qed.

Lemma firstn_assign (n : nat) df pct anom dir :
  assign (firstn n df) (firstn n pct) (firstn n anom) (firstn n dir) =
    firstn n (assign df pct anom dir).
Proof.
  revert df pct anom dir; induction n as [ | n IH];
    intros [ | r df] [ | p pct] [ | a anom] [ | d dir]; try reflexivity.
  cbn [firstn assign]. rewrite IH. reflexivity.
Qed.

End Prefix.

(** X5: annotating the first [n] rows of a frame gives the first [n] rows
    of the annotated frame: the annotation of a week does not depend on
    the weeks after it. *)
Theorem annotation_of_prefix (fm : Pandas.fill_method) (df : DataFrame)
  (t : float) (n : nat) :
  compute_anomalies fm (firstn n df) t = firstn n (compute_anomalies fm df t).
Proof.
  rewrite !compute_anomalies_eq. unfold column.
  rewrite <- firstn_assign, !firstn_map, <- firstn_pct_change, firstn_map.
  reflexivity.
Qed.

(** ** The threshold *)

Lemma SFleb_trans (x y z : float) :
  SFleb x y = true -> SFleb y z = true -> SFleb x z = true.
Proof.
  unfold SFleb.
  destruct x as [sx | sx | | sx mx ex], y as [sy | sy | | sy my ey],
    z as [sz | sz | | sz mz ez]; cbn [SFcompare];
    try discriminate; try reflexivity;
    try (destruct sx; try discriminate; try reflexivity);
    try (destruct sy; try discriminate; try reflexivity);
    try (destruct sz; try discriminate; try reflexivity);
    change (Pos.compare_cont Eq) with Pos.compare;
    destruct (Z.compare_spec ex ey); destruct (Z.compare_spec ey ez);
    destruct (Z.compare_spec ex ez); try lia; try discriminate;
    try reflexivity;
    destruct (Pos.compare_spec mx my); destruct (Pos.compare_spec my mz);
    destruct (Pos.compare_spec mx mz); cbn [CompOpp];
    try lia; try discriminate; try reflexivity.
Qed.

Lemma assign_threshold df pct (f1 f2 : float -> bool)
  (g : float -> option string) :
  (forall p, f2 p = true -> f1 p = true) ->
  Forall2 (fun a1 a2 =>
             a_date a1 = a_date a2 /\ a_interest a1 = a_interest a2 /\
             pct_change a1 = pct_change a2 /\ direction a1 = direction a2 /\
             (is_anomaly a2 = true -> is_anomaly a1 = true))
    (assign df pct (map f1 pct) (map g pct))
    (assign df pct (map f2 pct) (map g pct)).
Proof.
  intros Hf. revert pct; induction df as [ | r df IH]; intros [ | p pct];
    cbn [assign map]; constructor; [ | apply IH].
  cbn. repeat split; try reflexivity. apply Hf.
Qed.

(** X6: the threshold decides the flags and nothing else.  Under two
    thresholds [t1 <= t2] the annotated frames agree row by row on date,
    interest, change and direction, and every row flagged under [t2] is
    flagged under [t1]: raising the threshold never adds an anomaly. *)
Theorem threshold_monotone (fm : Pandas.fill_method) (df : DataFrame)
  (t1 t2 : float) :
  F64.leb t1 t2 = true ->
  Forall2 (fun a1 a2 =>
             a_date a1 = a_date a2 /\ a_interest a1 = a_interest a2 /\
             pct_change a1 = pct_change a2 /\ direction a1 = direction a2 /\
             (is_anomaly a2 = true -> is_anomaly a1 = true))
    (compute_anomalies fm df t1) (compute_anomalies fm df t2).
Proof.
  intros Ht. rewrite !compute_anomalies_eq. apply assign_threshold.
  intros p. unfold F64.geb, F64.leb. apply SFleb_trans, Ht.
Qed.

Lemma threshold_monotone_witness :
  Forall2 (fun a1 a2 =>
             a_date a1 = a_date a2 /\ a_interest a1 = a_interest a2 /\
             pct_change a1 = pct_change a2 /\ direction a1 = direction a2 /\
             (is_anomaly a2 = true -> is_anomaly a1 = true))
    (compute_anomalies Pandas.Pad example_frame default_threshold)
    (compute_anomalies Pandas.Pad example_frame change_0_35).
Proof.
  apply (threshold_monotone Pandas.Pad example_frame default_threshold
           change_0_35).
  reflexivity.
Defined.

(** * Further properties of the formatter *)

Lemma digit_not_lead (c : ascii) : PyStr.is_digit c = true -> c <> "226"%char.
Proof. intros H ->. discriminate H. Qed.

Lemma format_1f_head (y : float) :
  exists c r, Fmt.format_1f y = String c r /\ c <> "226"%char.
Proof.
  destruct y as [s | s | | s m e].
  - destruct s; eexists; eexists; (split; [reflexivity | discriminate]).
  - destruct s; eexists; eexists; (split; [reflexivity | discriminate]).
  - eexists; eexists; (split; [reflexivity | discriminate]).
  - cbn [Fmt.format_1f]. destruct s; cbn [Fmt.sign append].
    + eexists; eexists; (split; [reflexivity | discriminate]).
    + pose proof (dec_nonempty (Fmt.tenths m e / 10)) as Hne.
      pose proof (dec_digits (Fmt.tenths m e / 10)) as Hd.
      destruct (PyStr.dec (Fmt.tenths m e / 10)) as [ | c r];
        [congruence | ].
      cbn [PyStr.all_digits] in Hd. apply andb_prop in Hd.
      exists c. eexists. split; [reflexivity | ].
      apply digit_not_lead, Hd.
Qed.

Lemma format_pct_not_dash (x : float) :
  F64.isnan x = false -> format_pct x <> em_dash.
Proof.
  intros E H. unfold format_pct, Pandas.isna in H. rewrite E in H.
  destruct (format_1f_head (F64.mul x (F64.of_int 100)))
    as (c & r & Hc & Hne).
  rewrite Hc in H. unfold em_dash in H. cbn [append] in H.
  injection H as H _. exact (Hne H).
Qed.

(** X7: the formatter prints the em-dash for an undefined (NaN) change
    and for no other value, so the placeholder always means "no change
    could be computed". *)
Theorem em_dash_iff_nan (x : float) :
  format_pct x = em_dash <-> F64.isnan x = true.
Proof.
  split.
  - intros H. destruct (F64.isnan x) eqn:E; [reflexivity | ].
    elim (format_pct_not_dash x E H).
  - destruct x; try discriminate. reflexivity.
Qed.

(** * Further properties of the fetcher *)

Section FetcherFacts.

Variable raw_frame : Type.
Variable raw_empty : raw_frame -> bool.
Variable normalize : string -> raw_frame -> outcome DataFrame.

Lemma fetch_handler_shape (e : exc) :
  (is_Exception e = true /\
   exists m, fetch_handler e = (Returns [], [StError m])) \/
  (is_Exception e = false /\ fetch_handler e = (Raises e, [])).
Proof.
  unfold fetch_handler. destruct (is_Exception e); [left | right];
    (split; [reflexivity | ]); [ | reflexivity].
  destruct (rate_limited e); eexists; reflexivity.
Qed.

Lemma fetch_body_shape (api : TrendReq raw_frame) (keyword : string) :
  events_of (fetch_body raw_empty normalize api keyword) = [] \/
  events_of (fetch_body raw_empty normalize api keyword) =
    [Slept; TrendsQuery keyword].
Proof.
  unfold fetch_body.
  destruct (construct api); [ | left; reflexivity].
  destruct (build_payload api keyword); [ | left; reflexivity].
  right. destruct (interest_over_time api keyword) as [[df | ] | e];
    try reflexivity.
  destruct (raw_empty df); reflexivity.
Qed.

Lemma fetch_split (api : TrendReq raw_frame) (keyword : string) :
  fetch_trends_2023_us raw_empty normalize api keyword =
    match result_of (fetch_body raw_empty normalize api keyword) with
    | Returns df =>
        (Returns df, events_of (fetch_body raw_empty normalize api keyword))
    | Raises e =>
        (result_of (fetch_handler e),
         (events_of (fetch_body raw_empty normalize api keyword)
            ++ events_of (fetch_handler e))%list)
    end.
Proof.
  unfold fetch_trends_2023_us.
  destruct (fetch_body raw_empty normalize api keyword) as [[df | e] l];
    cbn [bind ret result_of events_of fst snd].
  - rewrite app_nil_r. reflexivity.
  - destruct (fetch_handler e) as [r l']. reflexivity.
Qed.

End FetcherFacts.

(** X8: whatever the collaborator does, one fetch sleeps at most once and
    calls [interest_over_time] at most once, right after the sleep; both
    happen exactly when the constructor and [build_payload] have
    returned, so a fetch that fails in one of those two never sleeps.  At
    most one error message is written, after everything else; nothing is
    tried a second time. *)
Theorem fetch_single_attempt (raw_frame : Type) (raw_empty : raw_frame -> bool)
  (normalize : string -> raw_frame -> outcome DataFrame)
  (api : TrendReq raw_frame) (keyword : string) :
  let log := events_of (fetch_trends_2023_us raw_empty normalize api keyword) in
  (log = [] \/ (exists m, log = [StError m]) \/
   log = [Slept; TrendsQuery keyword] \/
   (exists m, log = [Slept; TrendsQuery keyword; StError m])) /\
  (In Slept log <->
   construct api = Returns tt /\ build_payload api keyword = Returns tt).
Proof.
  intros log. subst log.
  unfold fetch_trends_2023_us, fetch_body, fetch_handler.
  destruct (construct api) as [[] | e1];
    [destruct (build_payload api keyword) as [[] | e2];
     [destruct (interest_over_time api keyword) as [[df | ] | e3];
      [destruct (raw_empty df);
       [ | destruct (normalize keyword df) as [out | e4]] | | ] | ] | ];
    cbn [bind ret emit events_of snd app];
    repeat (match goal with
            | |- context [is_Exception ?e] => destruct (is_Exception e)
            | |- context [rate_limited ?e] => destruct (rate_limited e)
            end; cbn [bind ret emit events_of snd app]);
    (split; [eauto 7 | ]);
    (split; [intros H | intros [HA HB]]);
    first [ split; reflexivity
          | discriminate
          | cbn [In]; auto; fail
          | cbn [In] in H; intuition discriminate ].
Qed.

(** X9: an error message is written only together with the empty frame,
    and what the fetcher lets through is never an [Exception]: it either
    returns a frame, or passes on an exception of another kind without
    any message. *)
Theorem fetch_outcomes (raw_frame : Type) (raw_empty : raw_frame -> bool)
  (normalize : string -> raw_frame -> outcome DataFrame)
  (api : TrendReq raw_frame) (keyword : string) :
  let run := fetch_trends_2023_us raw_empty normalize api keyword in
  (exists df, result_of run = Returns df /\
              (st_errors (events_of run) <> [] -> df = [])) \/
  (exists e, result_of run = Raises e /\ is_Exception e = false /\
             st_errors (events_of run) = []).
Proof.
  intros run. subst run. rewrite fetch_split.
  destruct (fetch_body_shape raw_frame raw_empty normalize api keyword)
    as [E | E];
    destruct (result_of (fetch_body raw_empty normalize api keyword))
      as [df | e]; cbn [events_of result_of fst snd]; rewrite ?E;
    try (left; exists df; split; [reflexivity | intros H; now elim H]);
    destruct (fetch_handler_shape e) as [[_ [m Hm]] | [He Hm]]; rewrite Hm;
    cbn [events_of result_of fst snd app st_errors];
    try (left; exists []; split; reflexivity);
    right; exists e; repeat split; assumption.
Qed.

(** X10: an exception of the collaborator that is not an [Exception]
    (a keyboard interrupt, say) is not swallowed: the fetcher raises it
    unchanged and writes no message. *)
Theorem fetch_propagates_non_exception (raw_frame : Type)
  (raw_empty : raw_frame -> bool)
  (normalize : string -> raw_frame -> outcome DataFrame)
  (api : TrendReq raw_frame) (keyword : string) (e : exc) :
  collaborator_raises api keyword e ->
  is_Exception e = false ->
  let run := fetch_trends_2023_us raw_empty normalize api keyword in
  result_of run = Raises e /\ st_errors (events_of run) = [].
Proof.
  intros Hraise He run. subst run.
  unfold fetch_trends_2023_us, fetch_body.
  destruct Hraise as [H1 | H1 H2 | H1 H2 H3];
    rewrite ?H1, ?H2, ?H3; cbn [bind ret emit];
    unfold fetch_handler; rewrite He; split; reflexivity.
Qed.

Lemma fetch_propagates_non_exception_witness :
  result_of (fetch_trends_2023_us (fun _ : unit => true)
               (fun _ _ => Returns []) (failing_api keyboard_interrupt)
               "electric cars") = Raises keyboard_interrupt /\
  st_errors (events_of
    (fetch_trends_2023_us (fun _ : unit => true) (fun _ _ => Returns [])
       (failing_api keyboard_interrupt) "electric cars")) = [].
Proof.
  apply (fetch_propagates_non_exception unit (fun _ => true)
           (fun _ _ => Returns []) (failing_api keyboard_interrupt)
           "electric cars" keyboard_interrupt);
    [apply raises_interest_over_time; reflexivity | reflexivity].
Defined.

(** X11: an [Exception] raised on the success path, while pandas selects
    and resamples the keyword's column, is recovered like an error of the
    collaborator: the empty frame comes back, with the rate-limit message
    or the fetch-failed message for that error. *)
Theorem fetch_recovers_normalize_error (raw_frame : Type)
  (raw_empty : raw_frame -> bool)
  (normalize : string -> raw_frame -> outcome DataFrame)
  (api : TrendReq raw_frame) (keyword : string) (df : raw_frame) (e : exc) :
  construct api = Returns tt ->
  build_payload api keyword = Returns tt ->
  interest_over_time api keyword = Returns (Some df) ->
  raw_empty df = false ->
  normalize keyword df = Raises e ->
  is_Exception e = true ->
  fetch_trends_2023_us raw_empty normalize api keyword =
    (Returns [],
     [Slept; TrendsQuery keyword;
      StError (if rate_limited e then rate_limit_message
               else fetch_failed_message e)]).
Proof.
  intros H1 H2 H3 H4 H5 He.
  unfold fetch_trends_2023_us, fetch_body.
  rewrite H1, H2, H3, H4, H5. cbn [bind ret emit].
  unfold fetch_handler. rewrite He.
  destruct (rate_limited e); reflexivity.
Qed.

Lemma fetch_recovers_normalize_error_witness :
  fetch_trends_2023_us (fun _ : unit => false) (fun _ _ => Raises key_error)
    (answering_api (Some tt)) "electric cars" =
    (Returns [],
     [Slept; TrendsQuery "electric cars";
      StError "Error fetching trends data: 'electric cars'"]).
Proof.
  apply (fetch_recovers_normalize_error unit (fun _ => false)
           (fun _ _ => Raises key_error) (answering_api (Some tt))
           "electric cars" tt key_error); reflexivity.
Defined.

(** X12: when the collaborator answers with nothing or with an empty
    table, the fetcher returns the empty frame after one query and writes
    no error message; when it answers with data, the fetcher returns what
    the normalisation yields, again without a message. *)
Theorem fetch_success_is_silent (raw_frame : Type)
  (raw_empty : raw_frame -> bool)
  (normalize : string -> raw_frame -> outcome DataFrame)
  (api : TrendReq raw_frame) (keyword : string) (answer : option raw_frame) :
  construct api = Returns tt ->
  build_payload api keyword = Returns tt ->
  interest_over_time api keyword = Returns answer ->
  match answer with
  | None =>
      fetch_trends_2023_us raw_empty normalize api keyword =
        (Returns [], [Slept; TrendsQuery keyword])
  | Some df =>
      (raw_empty df = true ->
       fetch_trends_2023_us raw_empty normalize api keyword =
         (Returns [], [Slept; TrendsQuery keyword])) /\
      (forall out, raw_empty df = false ->
       normalize keyword df = Returns out ->
       fetch_trends_2023_us raw_empty normalize api keyword =
         (Returns out, [Slept; TrendsQuery keyword]))
  end.
Proof.
  intros H1 H2 H3. unfold fetch_trends_2023_us, fetch_body.
  rewrite H1, H2, H3. destruct answer as [df | ]; [ | reflexivity].
  split.
  - intros ->. reflexivity.
  - intros out -> ->. reflexivity.
Qed.

Lemma fetch_success_is_silent_witness :
  fetch_trends_2023_us (fun _ : unit => false)
    (fun _ _ => Returns example_frame) (answering_api (Some tt))
    "electric cars" =
    (Returns example_frame, [Slept; TrendsQuery "electric cars"]) /\
  fetch_trends_2023_us (fun _ : unit => false)
    (fun _ _ => Returns example_frame) (answering_api None)
    "electric cars" = (Returns [], [Slept; TrendsQuery "electric cars"]).
Proof.
  split.
  - apply (fetch_success_is_silent unit (fun _ => false)
             (fun _ _ => Returns example_frame) (answering_api (Some tt))
             "electric cars" (Some tt) eq_refl eq_refl eq_refl);
      reflexivity.
  - exact (fetch_success_is_silent unit (fun _ => false)
             (fun _ _ => Returns example_frame) (answering_api None)
             "electric cars" None eq_refl eq_refl eq_refl).
Defined.

(** * Further properties of the explanation step *)

(** X13: for a calendar date with a four-digit year, the prompt names
    what is asked about: it contains the keyword, the direction word, the
    region, and the date, which has the form [YYYY-MM-DD]. *)
Theorem prompt_contents (region keyword : string) (d : date)
  (direction : string) :
  valid_date d = true ->
  four_digit_year d = true ->
  let prompt := build_explanation_prompt region keyword d direction in
  PyStr.contains keyword prompt = true /\
  PyStr.contains direction prompt = true /\
  PyStr.contains (strftime_Ymd d) prompt = true /\
  iso_shape (strftime_Ymd d) = true /\
  PyStr.contains region prompt = true.
Proof.
  intros Hd _. unfold build_explanation_prompt. cbv zeta.
  split; [ | split; [ | split; [ | split]]].
  - apply contains_middle.
  - do 3 apply contains_append_l. apply contains_of_prefix, prefix_app.
  - do 5 apply contains_append_l. apply contains_of_prefix, prefix_app.
  - apply strftime_Ymd_iso, Hd.
  - do 7 apply contains_append_l. apply contains_of_prefix, prefix_app.
Qed.

Lemma prompt_contents_witness :
  PyStr.contains "electric cars"
    (build_explanation_prompt "the US" "electric cars" (mkdate 2023 3 5)
       "spiked") = true /\
  PyStr.contains "spiked"
    (build_explanation_prompt "the US" "electric cars" (mkdate 2023 3 5)
       "spiked") = true /\
  PyStr.contains (strftime_Ymd (mkdate 2023 3 5))
    (build_explanation_prompt "the US" "electric cars" (mkdate 2023 3 5)
       "spiked") = true /\
  iso_shape (strftime_Ymd (mkdate 2023 3 5)) = true /\
  PyStr.contains "the US"
    (build_explanation_prompt "the US" "electric cars" (mkdate 2023 3 5)
       "spiked") = true.
Proof.
  exact (prompt_contents "the US" "electric cars" (mkdate 2023 3 5) "spiked"
           eq_refl eq_refl).
Defined.






(** * The list of anomalies on the page *)

Section Listing.

Lemma in_indexed_from {A : Type} (k i : Z) (a : A) (l : list A) :
  In (i, a) (indexed_from k l) ->
  (k <= i)%Z /\ nth_error l (Z.to_nat (i - k)) = Some a.
Proof.
  revert k; induction l as [ | x l IH]; intros k; [contradiction | ].
  cbn [indexed_from In]. intros [E | H].
  - injection E as <- <-. split; [lia | ].
    replace (k - k)%Z with 0%Z by lia. reflexivity.
  - destruct (IH _ H) as [Hk Hn]. split; [lia | ].
    replace (i - k)%Z with (Z.succ (i - (k + 1)))%Z by lia.
    rewrite Z2Nat.inj_succ by lia. exact Hn.
Qed.

Lemma in_anomalies (af : AnnotatedFrame) (i : Z) (a : AnnotatedPoint) :
  In (i, a) (anomalies af) <->
  (0 <= i)%Z /\ nth_error af (Z.to_nat i) = Some a /\ is_anomaly a = true.
Proof.
  unfold anomalies. rewrite filter_In. cbn [snd]. split.
  - intros [H Ha]. destruct (in_indexed_from _ _ _ _ H) as [Hi Hn].
    rewrite Z.sub_0_r in Hn. auto.
  - intros (Hi & Hn & Ha). split; [ | exact Ha].
    clear Ha. rewrite <- (Z2Nat.id i Hi). generalize (Z.to_nat i) Hn.
    clear Hi Hn. intros n. replace (Z.of_nat n) with (0 + Z.of_nat n)%Z by lia.
    generalize 0%Z. revert n.
    induction af as [ | x af IH]; intros [ | n] k Hn; try discriminate.
    + injection Hn as ->. left. f_equal. lia.
    + right. replace (k + Z.of_nat (S n))%Z with ((k + 1) + Z.of_nat n)%Z
        by lia.
      apply IH, Hn.
Qed.

Lemma filter_indexed_from {A : Type} (f : A -> bool) (k : Z) (l : list A) :
  map snd (filter (fun ia => f (snd ia)) (indexed_from k l)) = filter f l.
Proof.
  revert k; induction l as [ | x l IH]; intros k; [reflexivity | ].
  cbn [indexed_from filter snd]. destruct (f x); cbn [map snd];
    rewrite IH; reflexivity.
Qed.

Lemma anomalies_rows (af : AnnotatedFrame) :
  map snd (anomalies af) = filter is_anomaly af.
Proof. apply filter_indexed_from. Qed.

Lemma flagged_direction_of (p t : float) :
  F64.ltb F64.zero t = true -> F64.geb (F64.abs p) t = true ->
  direction_of p = Some "spiked" \/ direction_of p = Some "dropped".
Proof.
  intros Ht Ha. unfold F64.geb in Ha.
  destruct p as [s | s | | s m e].
  - apply ltb_leb_flip in Ht.
    change (F64.abs (S754_zero s)) with F64.zero in Ha. congruence.
  - destruct s; [right | left]; reflexivity.
  - change (F64.abs S754_nan) with F64.nan in Ha.
    rewrite leb_nan_r in Ha. discriminate.
  - destruct s; [right | left]; reflexivity.
Qed.

End Listing.

(** X17: the list of anomalies holds exactly the flagged rows of the
    annotated frame, in the order of the frame and each under its own
    index, whatever the threshold.  Under a threshold above zero every
    entry is titled with its date, the word 'spiked' or 'dropped' (the
    stand-in 'changed' is never shown) and a percentage, never the
    em-dash. *)
Theorem anomaly_titles (fm : Pandas.fill_method) (df : DataFrame) (t : float) :
  map snd (anomalies (compute_anomalies fm df t)) =
    filter is_anomaly (compute_anomalies fm df t) /\
  (forall i a,
     In (i, a) (anomalies (compute_anomalies fm df t)) <->
     (0 <= i)%Z /\
     nth_error (compute_anomalies fm df t) (Z.to_nat i) = Some a /\
     is_anomaly a = true) /\
  (F64.ltb F64.zero t = true ->
   forall i a,
     In (i, a) (anomalies (compute_anomalies fm df t)) ->
     exists word pct_text,
       expander_title a =
         date_str (a_date a) ++ " • " ++ word ++ " • WoW: " ++ pct_text /\
       (word = "spiked" \/ word = "dropped") /\
       direction a = Some word /\
       pct_text = format_pct (pct_change a) /\
       pct_text <> em_dash).
Proof.
  split; [apply anomalies_rows | split; [apply in_anomalies | ]].
  intros Ht i a Hin. apply in_anomalies in Hin. destruct Hin as (Hi & Hn & Ha).
  destruct (compute_anomalies_rows fm df t a (nth_error_In _ _ Hn))
    as [Ea Ed].
  rewrite Ea in Ha.
  assert (Hnan : F64.isnan (pct_change a) = false).
  { unfold F64.geb in Ha. apply leb_notnan_r in Ha.
    rewrite isnan_abs in Ha. exact Ha. }
  unfold expander_title, direction_label. rewrite Ed.
  destruct (flagged_direction_of _ _ Ht Ha) as [-> | ->].
  - exists "spiked", (format_pct (pct_change a)).
    repeat split; auto. apply format_pct_not_dash, Hnan.
  - exists "dropped", (format_pct (pct_change a)).
    repeat split; auto. apply format_pct_not_dash, Hnan.
Qed.

Lemma anomaly_titles_witness :
  exists word pct_text,
    expander_title (row_spiked default_threshold) =
      date_str (mkdate 2023 1 8) ++ " • " ++ word ++ " • WoW: " ++ pct_text /\
    (word = "spiked" \/ word = "dropped") /\
    direction (row_spiked default_threshold) = Some word /\
    pct_text = format_pct change_0_35 /\
    pct_text <> em_dash.
Proof.
  destruct (anomaly_titles Pandas.Pad example_frame default_threshold)
    as (_ & Hiff & Htitle).
  apply (Htitle eq_refl 1%Z (row_spiked default_threshold)).
  apply Hiff. repeat split; try lia; reflexivity.
Defined.

(** ** Widget keys *)

Section Keys.

Lemma append_cancel_l (a x y : string) : a ++ x = a ++ y -> x = y.
Proof.
  induction a as [ | c a IH]; cbn [append]; intros H; [exact H | ].
  injection H as H. exact (IH H).
Qed.

Lemma append_split (a b x y : string) :
  String.length a = String.length b -> a ++ x = b ++ y -> a = b /\ x = y.
Proof.
  revert b; induction a as [ | c a IH]; intros [ | c' b] L H;
    try discriminate; cbn [append] in H.
  - split; [reflexivity | exact H].
  - injection H as -> H. injection L as L.
    destruct (IH b L H) as [-> ->]. split; reflexivity.
Qed.

Lemma iso_shape_length (s : string) :
  iso_shape s = true -> String.length s = 10%nat.
Proof.
  unfold iso_shape.
  destruct s as [ | y1 [ | y2 [ | y3 [ | y4 [ | h1 [ | m1 [ | m2 [ | h2
    [ | d1 [ | d2 [ | ? ?]]]]]]]]]]]; try discriminate.
  reflexivity.
Qed.

Lemma string_of_uint_inj (u v : Decimal.uint) :
  NilEmpty.string_of_uint u = NilEmpty.string_of_uint v -> u = v.
Proof.
  intros H. apply (f_equal NilEmpty.uint_of_string) in H.
  rewrite !NilEmpty.usu in H. congruence.
Qed.

Lemma dec_inj (i j : Z) :
  (0 <= i)%Z -> (0 <= j)%Z -> PyStr.dec i = PyStr.dec j -> i = j.
Proof.
  intros Hi Hj H. unfold PyStr.dec in H.
  apply string_of_uint_inj, DecimalN.Unsigned.to_uint_inj in H.
  apply Z2N.inj in H; assumption.
Qed.

Lemma key_inj (pre keyword : string) (d1 d2 : date) (i j : Z) :
  valid_date d1 = true -> valid_date d2 = true ->
  (0 <= i)%Z -> (0 <= j)%Z ->
  pre ++ keyword ++ "_" ++ date_str d1 ++ "_" ++ PyStr.dec i =
  pre ++ keyword ++ "_" ++ date_str d2 ++ "_" ++ PyStr.dec j ->
  i = j.
Proof.
  intros V1 V2 Hi Hj H.
  do 3 apply append_cancel_l in H.
  apply append_split in H.
  - destruct H as [_ H]. apply append_cancel_l in H.
    apply dec_inj; assumption.
  - unfold date_str.
    rewrite !iso_shape_length by (apply strftime_Ymd_iso; assumption).
    reflexivity.
Qed.

Lemma indexed_from_nodup {A : Type} (k : Z) (l : list A) :
  NoDup (map fst (indexed_from k l)).
Proof.
  revert k; induction l as [ | x l IH]; intros k; cbn [indexed_from map];
    constructor; [ | apply IH].
  cbn [fst]. intros H. apply in_map_iff in H.
  destruct H as [[i a] [E H]]. cbn [fst] in E. subst i.
  apply in_indexed_from in H. lia.
Qed.

Lemma filter_nodup_fst {A : Type} (f : Z * A -> bool) (l : list (Z * A)) :
  NoDup (map fst l) -> NoDup (map fst (filter f l)).
Proof.
  induction l as [ | x l IH]; cbn [map filter]; intros H; [constructor | ].
  inversion H as [ | ? ? Hx Hl]; subst.
  destruct (f x); [cbn [map]; constructor | ]; auto.
  intros Hin. apply Hx. apply in_map_iff in Hin.
  destruct Hin as [y [E Hy]]. apply filter_In in Hy.
  apply in_map_iff. exists y. tauto.
Qed.

Lemma nodup_keys {A B : Type} (key : Z * A -> B) (l : list (Z * A)) :
  NoDup (map fst l) ->
  (forall x y, In x l -> In y l -> key x = key y -> fst x = fst y) ->
  NoDup (map key l).
Proof.
  induction l as [ | x l IH]; cbn [map]; intros H K; constructor.
  - inversion H as [ | ? ? Hx Hl]; subst. intros Hin.
    apply in_map_iff in Hin. destruct Hin as [y [E Hy]].
    apply Hx. apply in_map_iff. exists y. split; [ | exact Hy].
    symmetry. apply K; [left; reflexivity | right; exact Hy | congruence].
  - inversion H; subst. apply IH; [assumption | ].
    intros x0 y Hx0 Hy. apply K; right; assumption.
Qed.

End Keys.

(** X18: in [app_openai.py], when every date of the annotated frame is a
    calendar date, no two anomalies of the list get the same button key
    or the same session key, and no button key is a session key. *)
Theorem anomaly_keys_distinct (keyword : string) (af : AnnotatedFrame) :
  (forall a, In a af -> valid_date (a_date a) = true) ->
  NoDup (map (fun ia => button_key keyword (a_date (snd ia)) (fst ia))
           (anomalies af)) /\
  NoDup (map (fun ia => explanation_key keyword (a_date (snd ia)) (fst ia))
           (anomalies af)) /\
  (forall d1 d2 i j,
     button_key keyword d1 i <> explanation_key keyword d2 j).
Proof.
  intros Hv.
  assert (Hin : forall x, In x (anomalies af) ->
                  (0 <= fst x)%Z /\ valid_date (a_date (snd x)) = true).
  { intros [i a] H. apply in_anomalies in H. destruct H as (Hi & Hn & _).
    split; [exact Hi | ]. apply Hv. exact (nth_error_In _ _ Hn). }
  assert (Hnd : NoDup (map fst (anomalies af))).
  { apply filter_nodup_fst, indexed_from_nodup. }
  split; [ | split].
  - apply nodup_keys; [exact Hnd | ].
    intros x y Hx Hy. destruct (Hin x Hx), (Hin y Hy).
    apply key_inj; assumption.
  - apply nodup_keys; [exact Hnd | ].
    intros x y Hx Hy. destruct (Hin x Hx), (Hin y Hy).
    apply key_inj; assumption.
  - intros d1 d2 i j H. unfold button_key, explanation_key in H.
    cbn [append] in H. discriminate H.
Qed.

Lemma anomaly_keys_distinct_witness :
  NoDup (map (fun ia => button_key "electric cars" (a_date (snd ia)) (fst ia))
           (anomalies
              (compute_anomalies Pandas.Pad example_frame default_threshold))).
Proof.
  apply (anomaly_keys_distinct "electric cars"
           (compute_anomalies Pandas.Pad example_frame default_threshold)).
  intros a H.
  repeat (destruct H as [<- | H]; [reflexivity | ]). contradiction.
Defined.

(** ** The displayed time frame *)

Section Timeframe.

Lemma split_space_length (s : string) :
  List.length (split_space s) = S (count_spaces s).
Proof.
  induction s as [ | c s IH]; [reflexivity | ].
  cbn [split_space count_spaces]. destruct (Ascii.eqb c " ").
  - cbn [List.length]. rewrite IH. reflexivity.
  - destruct (split_space s); [discriminate | exact IH].
Qed.

Lemma split_space_no_space (s : string) :
  count_spaces s = O -> split_space s = [s].
Proof.
  induction s as [ | c s IH]; [reflexivity | ].
  cbn [split_space count_spaces]. destruct (Ascii.eqb c " ");
    [discriminate | ].
  intros H. rewrite (IH H). reflexivity.
Qed.

Lemma split_space_two (a b : string) :
  count_spaces a = O -> count_spaces b = O ->
  split_space (a ++ String " " b) = [a; b].
Proof.
  intros Ha Hb. induction a as [ | c a IH].
  - cbn [append split_space]. rewrite Ascii.eqb_refl.
    rewrite (split_space_no_space b Hb). reflexivity.
  - cbn [count_spaces] in Ha. cbn [append split_space].
    destruct (Ascii.eqb c " "); [discriminate | ].
    rewrite (IH Ha). reflexivity.
Qed.

End Timeframe.

(** X19: a time frame that does not hold exactly one space is displayed
    as it is, whatever the date parser would do. *)
Theorem timeframe_fallback (strptime : string -> outcome date)
  (timeframe : string) :
  count_spaces timeframe <> 1%nat ->
  format_timeframe_display strptime timeframe = timeframe.
Proof.
  intros H. unfold format_timeframe_display.
  pose proof (split_space_length timeframe) as L.
  destruct (split_space timeframe) as [ | a [ | b [ | c l]]];
    try reflexivity.
  cbn [List.length] in L. congruence.
Qed.

Lemma timeframe_fallback_witness :
  format_timeframe_display (fun _ => Returns (mkdate 2023 1 1)) "all" =
    "all" /\
  format_timeframe_display (fun _ => Returns (mkdate 2023 1 1))
    "2023-01-01  2023-12-31" = "2023-01-01  2023-12-31".
Proof.
  split.
  - apply (timeframe_fallback (fun _ => Returns (mkdate 2023 1 1)) "all").
    discriminate.
  - apply (timeframe_fallback (fun _ => Returns (mkdate 2023 1 1))
             "2023-01-01  2023-12-31").
    discriminate.
Defined.

(** X20: a time frame made of two parts without spaces, one space between
    them, is displayed as the two parsed dates in the form
    [Month DD, YYYY], joined by a dash, when the parser accepts both
    parts as calendar dates with four-digit years, and as it is when the
    parser rejects one of them. *)
Theorem timeframe_display (strptime : string -> outcome date)
  (start_date end_date : string) :
  count_spaces start_date = O -> count_spaces end_date = O ->
  (forall d,
     strptime start_date = Returns d \/ strptime end_date = Returns d ->
     valid_date d = true /\ four_digit_year d = true) ->
  format_timeframe_display strptime (start_date ++ " " ++ end_date) =
    match strptime start_date, strptime end_date with
    | Returns start_dt, Returns end_dt =>
        month_name (month start_dt) ++ " " ++
        PyStr.zfill 2 (PyStr.dec (day start_dt)) ++ ", " ++
        PyStr.zfill 4 (PyStr.dec (year start_dt)) ++ " - " ++
        month_name (month end_dt) ++ " " ++
        PyStr.zfill 2 (PyStr.dec (day end_dt)) ++ ", " ++
        PyStr.zfill 4 (PyStr.dec (year end_dt))
    | _, _ => start_date ++ " " ++ end_date
    end.
Proof.
  intros Ha Hb _. unfold format_timeframe_display.
  change (start_date ++ " " ++ end_date)
    with (start_date ++ String " " end_date).
  rewrite (split_space_two _ _ Ha Hb).
  destruct (strptime start_date) as [d1 | e1];
    destruct (strptime end_date) as [d2 | e2]; try reflexivity.
  unfold strftime_BdY. rewrite !string_app_assoc. reflexivity.
Qed.

Lemma timeframe_display_witness :
  format_timeframe_display
    (fun s => if String.eqb s "2023-01-01" then Returns (mkdate 2023 1 1)
              else if String.eqb s "2023-12-31" then Returns (mkdate 2023 12 31)
              else Raises (mkexc true "does not match format"))
    "2023-01-01 2023-12-31" = "January 01, 2023 - December 31, 2023".
Proof.
  apply (timeframe_display
           (fun s => if String.eqb s "2023-01-01" then Returns (mkdate 2023 1 1)
                     else if String.eqb s "2023-12-31"
                          then Returns (mkdate 2023 12 31)
                          else Raises (mkexc true "does not match format"))
           "2023-01-01" "2023-12-31"); [reflexivity | reflexivity | ].
  intros d [H | H]; vm_compute in H; injection H as <-; split; reflexivity.
Defined.

(** * Missing readings and the pandas version *)

Section Rounding.

Lemma shr_1_nonneg (mrs : shr_record) :
  (0 <= shr_m mrs)%Z -> (0 <= shr_m (shr_1 mrs))%Z.
Proof.
  destruct mrs as [m r s].
  destruct m as [ | [p | p | ] | p]; cbn; intros H; lia.
Qed.

Lemma iter_pos_invariant {A : Type} (P : A -> Prop) (f : A -> A) :
  (forall x, P x -> P (f x)) -> forall p x, P x -> P (iter_pos f p x).
Proof.
  intros Hf. induction p as [p IH | p IH | ]; intros x Hx; cbn [iter_pos];
    auto.
Qed.

Lemma shr_fexp_nonneg (m e : Z) (l : location) :
  (0 <= m)%Z -> (0 <= shr_m (fst (shr_fexp F64.prec F64.emax m e l)))%Z.
Proof.
  intros Hm. unfold shr_fexp, shr.
  assert (H0 : (0 <= shr_m (shr_record_of_loc m l))%Z).
  { destruct l as [ | [ | | ]]; exact Hm. }
  destruct (fexp F64.prec F64.emax (Zdigits2 m + e) - e)%Z as [ | p | p];
    cbn [fst]; try exact H0.
  apply (iter_pos_invariant (fun mrs => (0 <= shr_m mrs)%Z));
    [exact shr_1_nonneg | exact H0].
Qed.

Lemma round_nearest_even_nonneg (m : Z) (l : location) :
  (0 <= m)%Z -> (0 <= round_nearest_even m l)%Z.
Proof.
  intros Hm. destruct l as [ | [ | | ]]; cbn [round_nearest_even]; try lia.
  destruct (Z.even m); lia.
Qed.

Lemma binary_round_aux_not_nan (s : bool) (m e : Z) (l : location) :
  (0 <= m)%Z ->
  F64.isnan (binary_round_aux F64.prec F64.emax s m e l) = false.
Proof.
  intros Hm. unfold binary_round_aux.
  pose proof (shr_fexp_nonneg m e l Hm) as H1.
  destruct (shr_fexp F64.prec F64.emax m e l) as [mrs' e']. cbn [fst] in H1.
  pose proof (shr_fexp_nonneg
                (round_nearest_even (shr_m mrs') (loc_of_shr_record mrs'))
                e' loc_Exact (round_nearest_even_nonneg _ _ H1)) as H2.
  destruct (shr_fexp F64.prec F64.emax _ e' loc_Exact) as [mrs'' e''].
  cbn [fst] in H2. destruct (shr_m mrs'') as [ | p | p]; try reflexivity;
    [ | lia].
  destruct (e'' <=? F64.emax - F64.prec)%Z; reflexivity.
Qed.

Lemma of_int_not_nan (z : Z) : F64.isnan (F64.of_int z) = false.
Proof.
  unfold F64.of_int, binary_normalize, binary_round.
  destruct z as [ | p | p]; [reflexivity | | ];
    destruct (shl_align _ _ _) as [mz ez];
    apply binary_round_aux_not_nan; lia.
Qed.

Lemma div_nan_l (x : float) : F64.div F64.nan x = F64.nan.
Proof. reflexivity. Qed.

End Rounding.

(** X21: converting an integer reading to binary64 never gives NaN, so on
    a frame whose readings are integers or floats other than NaN the
    annotation is the same whether pandas pads missing values (before
    3.0) or not. *)
Theorem fill_method_irrelevant (df : DataFrame) (t : float) :
  (forall r, In r df ->
     match interest r with
     | NInt _ => True
     | NFloat f => F64.isnan f = false
     end) ->
  nan_free (column df) = true /\
  compute_anomalies Pandas.Pad df t = compute_anomalies Pandas.NoFill df t.
Proof.
  intros H.
  assert (Hfree : nan_free (column df) = true).
  { unfold nan_free, column. apply forallb_forall. intros x Hx.
    apply in_map_iff in Hx. destruct Hx as [r [<- Hr]].
    specialize (H r Hr). unfold Pandas.notna. apply negb_true_iff.
    destruct (interest r) as [z | f]; [apply of_int_not_nan | exact H]. }
  split; [exact Hfree | ].
  rewrite !compute_anomalies_eq. unfold Pandas.pct_change, Pandas.ffill.
  rewrite (ffill_nan_free None _ Hfree). reflexivity.
Qed.

Lemma fill_method_irrelevant_witness :
  nan_free (column example_frame) = true /\
  compute_anomalies Pandas.Pad example_frame default_threshold =
    compute_anomalies Pandas.NoFill example_frame default_threshold.
Proof.
  apply (fill_method_irrelevant example_frame default_threshold).
  intros r H.
  repeat (destruct H as [<- | H]; [exact I | ]). contradiction.
Defined.

(** X22: when pandas does not pad, a row whose own reading or whose
    previous reading is missing (NaN) has an undefined change, is not
    flagged and has no direction. *)
Theorem missing_reading_unflagged (df : DataFrame) (t : float) (i : nat)
  (r0 r1 : ObservationPoint) :
  nth_error df i = Some r0 ->
  nth_error df (S i) = Some r1 ->
  F64.isnan (astype_float (interest r0)) = true \/
  F64.isnan (astype_float (interest r1)) = true ->
  nth_error (compute_anomalies Pandas.NoFill df t) (S i) =
    Some (mkann (date_of r1) (interest r1) F64.nan false None).
Proof.
  intros H0 H1 Hnan.
  rewrite (compute_anomalies_nth Pandas.NoFill df t i r0 r1
             (or_introl eq_refl) H0 H1).
  assert (E : F64.div (astype_float (interest r1))
                (astype_float (interest r0)) = F64.nan).
  { destruct Hnan as [Hn | Hn].
    - destruct (astype_float (interest r0)); try discriminate.
      apply div_nan_r.
    - destruct (astype_float (interest r1)); try discriminate.
      reflexivity. }
  rewrite E, sub_nan_l. unfold F64.geb.
  change (F64.abs F64.nan) with F64.nan. rewrite leb_nan_r. reflexivity.
Qed.

Lemma missing_reading_unflagged_witness :
  nth_error (compute_anomalies Pandas.NoFill
               [reading 1 1 40; mkobs (mkdate 2023 1 8) (NFloat F64.nan);
                reading 1 15 90] default_threshold) 2 =
    Some (mkann (mkdate 2023 1 15) (NInt 90) F64.nan false None).
Proof.
  apply (missing_reading_unflagged
           [reading 1 1 40; mkobs (mkdate 2023 1 8) (NFloat F64.nan);
            reading 1 15 90] default_threshold 1
           (mkobs (mkdate 2023 1 8) (NFloat F64.nan)) (reading 1 15 90));
    [reflexivity | reflexivity | left; reflexivity].
Defined.

(** * Rounding to one decimal *)

Lemma round_half_even_near (n d : Z) :
  (0 < d)%Z -> (Z.abs (2 * (Fmt.round_half_even n d * d - n)) <= d)%Z.
Proof.
  intros Hd. unfold Fmt.round_half_even.
  pose proof (Z.div_mod n d ltac:(lia)) as E.
  pose proof (Z.mod_pos_bound n d Hd) as B.
  destruct (Z.compare_spec (2 * (n mod d)) d) as [C | C | C];
    [destruct (Z.even (n / d)) | | ]; nia.
Qed.

(** X23: the number of tenths the formatter prints for a finite value
    [m * 2^e] is that value times ten when this is an integer, and
    otherwise an integer within one half of it: the percentage shown is
    the binary64 product rounded to the nearest tenth. *)
Theorem tenths_nearest (m : positive) (e : Z) :
  ((0 <= e)%Z -> Fmt.tenths m e = (Z.pos m * 2 ^ e * 10)%Z) /\
  ((e < 0)%Z ->
   (Z.abs (2 * (Fmt.tenths m e * 2 ^ (- e) - Z.pos m * 10)) <= 2 ^ (- e))%Z) /\
  (0 <= Fmt.tenths m e)%Z /\
  Fmt.format_1f (S754_finite false m e) =
    PyStr.dec (Fmt.tenths m e / 10) ++ "." ++ PyStr.dec (Fmt.tenths m e mod 10).
Proof.
  unfold Fmt.tenths. repeat split.
  - intros H. apply Z.leb_le in H. rewrite H. reflexivity.
  - intros H. apply Z.leb_gt in H. rewrite H.
    apply round_half_even_near. apply Z.pow_pos_nonneg; lia.
  - destruct (Z.leb_spec 0 e) as [H | H].
    + pose proof (Z.pow_nonneg 2 e ltac:(lia)). nia.
    + assert (Hd : (0 < 2 ^ (- e))%Z) by (apply Z.pow_pos_nonneg; lia).
      unfold Fmt.round_half_even.
      pose proof (Z.div_pos (Z.pos m * 10) (2 ^ (- e)) ltac:(lia) Hd).
      destruct (_ ?= _)%Z; [destruct (Z.even _) | | ]; lia.
Qed.

Lemma tenths_nearest_witness :
  Fmt.tenths 5 3 = 400%Z /\
  (Z.abs (2 * (Fmt.tenths 6305039478318696 (-54) * 2 ^ 54
               - 6305039478318696 * 10)) <= 2 ^ 54)%Z.
Proof.
  destruct (tenths_nearest 5 3) as (H1 & _).
  destruct (tenths_nearest 6305039478318696 (-54)) as (_ & H2 & _).
  split; [apply H1; lia | apply H2; lia].
Defined.

Lemma em_dash_iff_nan_witness : format_pct F64.nan = em_dash.
Proof. apply (em_dash_iff_nan F64.nan). reflexivity. Defined.
